(** * aiController: the model allow-list, the dispatch helper [callAI]
      and the seven endpoint handlers

    A shallow embedding of [controllers/aiController.js].  The handlers are
    effectful: they talk to the chat-completion provider, to the transcript
    service, to the file system, to the console and to the HTTP response.
    Every one of these effects is kept: the file system is explicit state,
    the collaborators are oracles of an environment [Env], and every
    observable action is appended to a trace of [Event]s, so that "no
    upstream call is made" is a statement about the trace. *)

From Stdlib Require Import PrimFloat.
From stdpp Require Import gmap strings list fin_maps.

Open Scope string_scope.
Set Warnings "-register-all".

(** ** JavaScript values

    The values that reach the controller: [req.body] is what
    [express.json()] / [express.urlencoded()] parsed, so its fields are JSON
    values, and a field that is not there reads as [undefined].  Numbers are
    IEEE-754 doubles.  Objects keep their properties in insertion order. *)

Inductive value : Type :=
  | JUndefined
  | JNull
  | JBool (b : bool)
  | JNum (n : float)
  | JStr (s : string)
  | JArr (items : list value)
  | JObj (props : list (string * value)).

(** ToBoolean: the test behind [if (!prompt)].  The falsy values are
    [undefined], [null], [false], [+0], [-0], [NaN] and the empty string. *)
Definition truthy (v : value) : bool :=
  match v with
  | JUndefined | JNull => false
  | JBool b => b
  | JNum n => negb (PrimFloat.eqb n 0 || negb (PrimFloat.eqb n n))
  | JStr s => negb (String.eqb s EmptyString)
  | JArr _ | JObj _ => true
  end.

(** [Array.prototype.includes] on an array of strings: SameValueZero finds
    the argument only when it is a string equal to an element. *)
Definition includes (l : list string) (v : value) : bool :=
  match v with
  | JStr s => existsb (String.eqb s) l
  | _ => false
  end.

(** [Array.prototype.join] on an array of strings. *)
Definition join (sep : string) (l : list string) : string := String.concat sep l.

(** A thrown JavaScript error object: its constructor name and [message]. *)
Record exn : Type := { exn_name : string; exn_message : string }.

(** [new Error(msg)] *)
Definition Error (msg : string) : exn := {| exn_name := "Error"; exn_message := msg |}.
Definition TypeError (msg : string) : exn := {| exn_name := "TypeError"; exn_message := msg |}.

(** ** Messages, completions, transcripts, uploads *)

Record Message : Type := { role : string; content : value }.

(** One element of [completion.choices]; [message_content] is
    [choice.message.content]. *)
Record Choice : Type := { message_content : value }.
Record Completion : Type := { choices : list Choice }.

(** One timed segment returned by [YoutubeTranscript.fetchTranscript]. *)
Record Segment : Type := { text : string; duration : float; offset : float }.

(** A path is kept as its list of components; [path.join] appends.  The
    components are not normalised: the controller always names a file by
    the same expression, so equal files have equal component lists. *)
Definition path : Type := list string.
Definition path_join (p : path) (more : list string) : path := (p ++ more)%list.

(** [req.file] as filled in by multer. *)
Record UploadedFile : Type := { file_path : path; mimetype : string }.

Record Request : Type := { body : gmap string value; file : option UploadedFile }.

(** [const { f } = req.body]: a missing property reads as [undefined]. *)
Definition field (req : Request) (f : string) : value :=
  default JUndefined (body req !! f).

(** [const { model = d } = req.body]: the default applies exactly when the
    property is [undefined] (in particular not when it is [null]). *)
Definition field_default (req : Request) (f : string) (d : string) : value :=
  match field req f with
  | JUndefined => JStr d
  | v => v
  end.

(** ** Base64, as [Buffer.prototype.toString('base64')] produces it

    A buffer is a byte string; three bytes become four digits of the
    standard alphabet, and a last group of one or two bytes is padded
    with [=]. *)

Definition b64_alphabet : string :=
  "ABCDEFGHIJKLMNOPQRSTUVWXYZabcdefghijklmnopqrstuvwxyz0123456789+/".

Definition b64_digit (n : N) : string :=
  match String.get (N.to_nat n) b64_alphabet with
  | Some c => String c EmptyString
  | None => EmptyString
  end.

Fixpoint base64 (buf : string) : string :=
  match buf with
  | EmptyString => EmptyString
  | String a EmptyString =>
      let x := Ascii.N_of_ascii a in
      b64_digit (x / 4) ++ b64_digit (x mod 4 * 16) ++ "=="
  | String a (String b EmptyString) =>
      let x := Ascii.N_of_ascii a in
      let y := Ascii.N_of_ascii b in
      b64_digit (x / 4) ++ b64_digit (x mod 4 * 16 + y / 16)
        ++ b64_digit (y mod 16 * 4) ++ "="
  | String a (String b (String c rest)) =>
      let x := Ascii.N_of_ascii a in
      let y := Ascii.N_of_ascii b in
      let z := Ascii.N_of_ascii c in
      b64_digit (x / 4) ++ b64_digit (x mod 4 * 16 + y / 16)
        ++ b64_digit (y mod 16 * 4 + z / 64) ++ b64_digit (z mod 64)
        ++ base64 rest
  end%N.

(** ** Effects

    The file system is the state.  [files] holds the regular files with
    their bytes, [dirs] the directories.  Storage is taken as reliable:
    an operation fails only for the reasons visible in this state (a file
    that is not there, a directory that already is, a directory where the
    file should go, a regular file or nothing where its directory should
    be). *)

Record World : Type := { files : gmap path string; dirs : gset path }.

(** What the outer world sees of a run, in order.  [EvCallAI] marks an
    entry into the dispatch helper with the arguments it was given; the
    other events are the actions themselves. *)
Inductive piece : Type := Lit (s : string) | Hole (v : value).

Inductive Event : Type :=
  | EvCallAI (model : value) (messages : list Message)
  | EvCreate (model : value) (messages : list Message)
      (* openrouter.chat.completions.create({ model, messages }) *)
  | EvFetchTranscript (url : value)
      (* YoutubeTranscript.fetchTranscript(url) *)
  | EvConsoleError (label : list piece) (error : exn)
  | EvMkdir (p : path)
  | EvWrite (p : path) (data : string)
  | EvRead (p : path)
  | EvUnlink (p : path)
  | EvJson (status : nat) (payload : value)
      (* res.status(status).json(payload) *)
  | EvDownload (filename : string) (data : string) (err : option exn).
      (* res.download: the attachment sent and how the transfer ended *)

Inductive Result (A : Type) : Type :=
  | Ok (a : A)
  | Throw (e : exn).
Arguments Ok {A} a.
Arguments Throw {A} e.

(** The collaborators.  An awaited promise that rejects is a [Throw].
    [fetchTranscript] may resolve to nothing ([None]: [null] or
    [undefined]) or to an array of segments.  The last two fields are the
    platform's spellings inside the messages of its own errors: how it
    writes a path, and how it describes an argument it refuses (what
    follows "Received" in the message). *)
Record Env : Type := {
  __dirname : path;
  chat_completions_create : value -> list Message -> Result Completion;
  fetchTranscript : value -> Result (option (list Segment));
  transfer : path -> string -> option exn;
  path_text : path -> string;
  received : value -> string
}.

(** A computation reads and changes the world, emits events, and returns
    or throws. *)
Definition M (A : Type) : Type := World -> Result A * World * list Event.

Definition ret {A} (a : A) : M A := fun w => (Ok a, w, []).
Definition throw {A} (e : exn) : M A := fun w => (Throw e, w, []).
Definition emit (ev : Event) : M unit := fun w => (Ok tt, w, [ev]).

Definition bind {A B} (m : M A) (k : A -> M B) : M B :=
  fun w =>
    match m w with
    | (Ok a, w1, t1) => let '(r, w2, t2) := k a w1 in (r, w2, (t1 ++ t2)%list)
    | (Throw e, w1, t1) => (Throw e, w1, t1)
    end.

(** [try { m } catch (error) { h error }] *)
Definition try_catch {A} (m : M A) (h : exn -> M A) : M A :=
  fun w =>
    match m w with
    | (Ok a, w1, t1) => (Ok a, w1, t1)
    | (Throw e, w1, t1) => let '(r, w2, t2) := h e w1 in (r, w2, (t1 ++ t2)%list)
    end.

Declare Scope js_scope.
Delimit Scope js_scope with js.
Notation "x <- m ;; k" := (bind m (fun x => k))
  (at level 100, m at next level, right associativity) : js_scope.
Notation "m ;; k" := (bind m (fun _ => k))
  (at level 100, right associativity) : js_scope.
Open Scope js_scope.

(** The trace, the final world and the result of a run. *)
Definition trace {A} (r : Result A * World * list Event) : list Event := snd r.
Definition world {A} (r : Result A * World * list Event) : World := snd (fst r).
Definition result {A} (r : Result A * World * list Event) : Result A := fst (fst r).

(** ** The controller and the platform under it *)

Section Controller.

Variable env : Env.

(** *** The [fs] module

    A system error of [fs]: [code: description, syscall 'path']. *)

Definition errno (code description syscall : string) (p : path) : exn :=
  {| exn_name := "Error";
     exn_message :=
       code ++ ": " ++ description ++ ", " ++ syscall ++ " '"
         ++ path_text env p ++ "'" |}.

Definition ENOENT (syscall : string) (p : path) : exn :=
  errno "ENOENT" "no such file or directory" syscall p.
Definition ENOTDIR (syscall : string) (p : path) : exn :=
  errno "ENOTDIR" "not a directory" syscall p.
Definition EISDIR (syscall : string) (p : path) : exn :=
  errno "EISDIR" "illegal operation on a directory" syscall p.
Definition EEXIST (syscall : string) (p : path) : exn :=
  errno "EEXIST" "file already exists" syscall p.

(** [path.dirname] *)
Definition dirname (p : path) : path := removelast p.

Definition existsSync (p : path) : M bool :=
  fun w => (Ok (bool_decide (p ∈ dirs w) || bool_decide (is_Some (files w !! p))), w, []).

Definition mkdirSync (p : path) : M unit :=
  fun w =>
    if bool_decide (p ∈ dirs w) || bool_decide (is_Some (files w !! p))
    then (Throw (EEXIST "mkdir" p), w, [])
    else (Ok tt, {| files := files w; dirs := {[p]} ∪ dirs w |}, [EvMkdir p]).

(** The message of the TypeError with which [fs] refuses data that is
    neither a string nor a buffer. *)
Definition data_type_error_message (data : value) : string :=
  "The " ++ String (Ascii.ascii_of_nat 34) "data"
    ++ String (Ascii.ascii_of_nat 34)
         " argument must be of type string or an instance of Buffer, TypedArray, or DataView. Received "
    ++ received env data.

(** Why a file cannot be opened for writing at [p], if it cannot: [p] is
    a directory, or the directory it should be in is a regular file, or
    is not there. *)
Definition storage_error (p : path) (w : World) : option exn :=
  if bool_decide (p ∈ dirs w) then Some (EISDIR "open" p)
  else if bool_decide (dirname p ∈ dirs w) then None
  else if bool_decide (is_Some (files w !! dirname p)) then Some (ENOTDIR "open" p)
  else Some (ENOENT "open" p).

(** [fs.writeFileSync(p, data)] takes a string (or a buffer); any other
    data is refused with a TypeError before the file is touched.  A
    string is written when the file can be opened. *)
Definition writeFileSync (p : path) (data : value) : M unit :=
  fun w =>
    match data with
    | JStr s =>
        match storage_error p w with
        | Some er => (Throw er, w, [])
        | None =>
            (Ok tt, {| files := <[p := s]> (files w); dirs := dirs w |}, [EvWrite p s])
        end
    | _ => (Throw (TypeError (data_type_error_message data)), w, [])
    end.

Definition readFileSync (p : path) : M string :=
  fun w =>
    match files w !! p with
    | Some data => (Ok data, w, [EvRead p])
    | None => (Throw (ENOENT "open" p), w, [])
    end.

Definition unlinkSync (p : path) : M unit :=
  fun w =>
    match files w !! p with
    | Some _ => (Ok tt, {| files := delete p (files w); dirs := dirs w |}, [EvUnlink p])
    | None => (Throw (ENOENT "unlink" p), w, [])
    end.

(** *** Console and response *)

Definition console_error (label : list piece) (error : exn) : M unit :=
  emit (EvConsoleError label error).

Definition res_json (status : nat) (payload : value) : M unit :=
  emit (EvJson status payload).

(** [{ error: msg }] *)
Definition error_payload (msg : string) : value := JObj [("error", JStr msg)].

(** *** The constants of the controller *)

(** List of available free models from OpenRouter *)
Definition AVAILABLE_MODELS : list string :=
  [ "microsoft/phi-4-reasoning-plus:free";
    "thudm/glm-z1-32b:free";
    "deepseek/deepseek-chat-v3-0324:free";
    "deepseek/deepseek-chat:free";
    "qwen/qwen3-32b:free" ].

Definition invalid_model_message : string :=
  "Invalid model. Choose from: " ++ join ", " AVAILABLE_MODELS.

Definition upstream_failure_message : string :=
  "Failed to get response from AI model.".

(** The system instructions, one per endpoint. *)
Definition dquote : string := String (Ascii.ascii_of_nat 34) EmptyString.

Definition generateCode_systemPrompt : string :=
  "You are an expert web developer. Generate a complete, self-contained HTML file with embedded CSS and JavaScript based on the user's prompt. The HTML, CSS, and JS should be in a single index.html file. Do not use any external libraries unless specified. Your response should ONLY be the raw code for the index.html file, starting with <!DOCTYPE html> and ending with </html>. Do not include any explanations or markdown formatting like ```html.".

Definition getMathReasoning_systemPrompt : string :=
  "You are a math tutor. Solve the following problem and provide a clear, step-by-step reasoning for your solution. Format the final answer clearly.".

Definition solveCodingTask_systemPrompt : string :=
  "You are an expert programmer. Solve the following coding task. Provide a detailed explanation of your approach, the code solution, and an analysis of its time and space complexity. Use markdown for code blocks.".

Definition summarizeYoutubeVideo_systemPrompt : string :=
  "You are a helpful assistant. Summarize the following video transcript into a concise overview with the main key points listed as bullet points.".

Definition handleChat_systemPrompt : string :=
  "You are Anjali, a friendly and helpful AI assistant. Engage in a natural and supportive conversation.".

Definition getExplainer_systemPrompt : string :=
  "You are an expert educator who simplifies complex topics. Explain the following topic in a simple, easy-to-understand way. Include analogies and "
    ++ dquote ++ "learning hacks" ++ dquote ++ " to make it memorable.".

Definition system_message (s : string) : Message := {| role := "system"; content := JStr s |}.
Definition user_message (c : value) : Message := {| role := "user"; content := c |}.

(** *** The collaborators, the dispatch helper and the handlers *)

(** [await openrouter.chat.completions.create({ model, messages })] *)
Definition create (model : value) (messages : list Message) : M Completion :=
  fun w => (chat_completions_create env model messages, w, [EvCreate model messages]).

(** [await YoutubeTranscript.fetchTranscript(url)] *)
Definition fetch_transcript (url : value) : M (option (list Segment)) :=
  fun w => (fetchTranscript env url, w, [EvFetchTranscript url]).

(** [x.choices[0].message.content]: with no first choice, [choices[0]] is
    [undefined] and reading its [message] throws. *)
Definition first_choice_content (c : Completion) : M value :=
  match choices c with
  | ch :: _ => ret (message_content ch)
  | [] => throw (TypeError "Cannot read properties of undefined (reading 'message')")
  end.

(** [res.download(p, filename, cb)] registers the transfer and returns;
    everything else happens after the handler's [try] block has been
    left, in two steps.  First the transfer opens the file: from then on
    it holds the bytes it found, also when the path is unlinked
    meanwhile; a file that is not there ends the transfer at once.  Later
    the transfer ends, well or badly, and [cb] runs.  The value returned
    here is the first step, which returns the second. *)
Definition res_download (p : path) (filename : string)
    (cb : option exn -> M unit) : M (M (M unit)) :=
  ret (fun w =>
         match files w !! p with
         | Some data =>
             (Ok (let err := transfer env p data in
                  emit (EvDownload filename data err);; cb err),
              w, [])
         | None => (Ok (cb (Some (ENOENT "stat" p))), w, [])
         end).

(** Helper function to make API calls *)
Definition callAI (model : value) (messages : list Message) : M value :=
  emit (EvCallAI model messages);;
  if negb (includes AVAILABLE_MODELS model) then
    throw (Error invalid_model_message)
  else
    try_catch
      (completion <- create model messages;;
       first_choice_content completion)
      (fun error =>
         console_error [Lit "Error calling AI model "; Hole model; Lit ":"] error;;
         throw (Error upstream_failure_message)).

(** 1. Generate Code Endpoint *)
Definition generateCode (req : Request) : M unit :=
  let prompt := field req "prompt" in
  let model := field_default req "model" "deepseek/deepseek-chat:free" in
  if negb (truthy prompt) then
    res_json 400 (error_payload "Prompt is required.")
  else
    let systemPrompt := generateCode_systemPrompt in
    opening <- try_catch
      (code <- callAI model [system_message systemPrompt; user_message prompt];;
       let dir := path_join (__dirname env) [".."; "generated_code"] in
       there <- existsSync dir;;
       (if negb there then mkdirSync dir else ret tt);;
       let filePath := path_join dir ["index.html"] in
       writeFileSync filePath code;;
       res_download filePath "index.html"
         (fun err =>
            match err with
            | Some e => console_error [Lit "Error downloading file:"] e
            | None => ret tt
            end;;
            unlinkSync filePath))
      (fun error =>
         res_json 500 (error_payload (exn_message error));;
         ret (ret (ret tt)));;
    (* the request on its own: its transfer opens and ends before
       anything else happens *)
    ending <- opening;;
    ending.

(** 2. Math Reasoning Endpoint *)
Definition getMathReasoning (req : Request) : M unit :=
  let prompt := field req "prompt" in
  let model := field_default req "model" "microsoft/phi-4-reasoning-plus:free" in
  if negb (truthy prompt) then
    res_json 400 (error_payload "Math problem prompt is required.")
  else
    let systemPrompt := getMathReasoning_systemPrompt in
    try_catch
      (reasoning <- callAI model [system_message systemPrompt; user_message prompt];;
       res_json 200 (JObj [("reasoning", reasoning)]))
      (fun error => res_json 500 (error_payload (exn_message error))).

(** 3. Coding Task Endpoint *)
Definition solveCodingTask (req : Request) : M unit :=
  let prompt := field req "prompt" in
  let model := field_default req "model" "thudm/glm-z1-32b:free" in
  if negb (truthy prompt) then
    res_json 400 (error_payload "Coding task prompt is required.")
  else
    let systemPrompt := solveCodingTask_systemPrompt in
    try_catch
      (solution <- callAI model [system_message systemPrompt; user_message prompt];;
       res_json 200 (JObj [("solution", solution)]))
      (fun error => res_json 500 (error_payload (exn_message error))).

(** 4. YouTube Summarizer Endpoint *)
Definition summarizeYoutubeVideo (req : Request) : M unit :=
  let url := field req "url" in
  let model := field_default req "model" "deepseek/deepseek-chat-v3-0324:free" in
  if negb (truthy url) then
    res_json 400 (error_payload "YouTube URL is required.")
  else
    try_catch
      (transcript <- fetch_transcript url;;
       match transcript with
       | None | Some [] =>
           res_json 404 (error_payload "Could not fetch transcript for this video. It might have transcripts disabled.")
       | Some items =>
           let transcriptText := join " " (map text items) in
           let systemPrompt := summarizeYoutubeVideo_systemPrompt in
           summary <- callAI model
             [system_message systemPrompt;
              user_message (JStr ("Transcript: " ++ transcriptText))];;
           res_json 200 (JObj [("summary", summary)])
       end)
      (fun error =>
         console_error [] error;;
         res_json 500 (error_payload "Failed to summarize YouTube video. Please ensure the URL is correct and the video has a transcript.")).

(** 5. General Chat Endpoint *)
Definition handleChat (req : Request) : M unit :=
  let prompt := field req "prompt" in
  let model := field_default req "model" "qwen/qwen3-32b:free" in
  if negb (truthy prompt) then
    res_json 400 (error_payload "Prompt is required for chat.")
  else
    let systemPrompt := handleChat_systemPrompt in
    try_catch
      (response <- callAI model [system_message systemPrompt; user_message prompt];;
       res_json 200 (JObj [("response", response)]))
      (fun error => res_json 500 (error_payload (exn_message error))).

(** The content parts of the vision request. *)
Definition vision_content (dataUrl : string) : value :=
  JArr [ JObj [("type", JStr "image_url"); ("image_url", JObj [("url", JStr dataUrl)])];
         JObj [("type", JStr "text"); ("text", JStr "Describe this image in detail.")] ].

(** 6. Image to Text Endpoint *)
Definition imageToText (req : Request) : M unit :=
  match file req with
  | None => res_json 400 (error_payload "Image file is required.")
  | Some f =>
      try_catch
        (let imagePath := file_path f in
         imageBuffer <- readFileSync imagePath;;
         let imageBase64 := base64 imageBuffer in
         let dataUrl := "data:" ++ mimetype f ++ ";base64," ++ imageBase64 in
         let model := "qwen/qwen3-32b:free" in
         response <- create (JStr model) [user_message (vision_content dataUrl)];;
         unlinkSync imagePath;;
         description <- first_choice_content response;;
         res_json 200 (JObj [("description", description)]))
        (fun error =>
           console_error [Lit "Image processing error:"] error;;
           res_json 500 (error_payload "Failed to process image."))
  end.

(** 7. Explainer Endpoint *)
Definition getExplainer (req : Request) : M unit :=
  let topic := field req "topic" in
  let model := field_default req "model" "deepseek/deepseek-chat:free" in
  if negb (truthy topic) then
    res_json 400 (error_payload "Topic is required.")
  else
    let systemPrompt := getExplainer_systemPrompt in
    try_catch
      (explanation <- callAI model [system_message systemPrompt; user_message topic];;
       res_json 200 (JObj [("explanation", explanation)]))
      (fun error => res_json 500 (error_payload (exn_message error))).

End Controller.

(** ** The routing table ([routes/apiRoutes.js]) *)

Inductive Endpoint : Type :=
  | GenerateCode      (* POST /generate-code     *)
  | MathReasoning     (* POST /math-reasoning    *)
  | CodingTask        (* POST /coding-task       *)
  | YoutubeSummarize  (* POST /youtube-summarize *)
  | Chat              (* POST /chat              *)
  | ImageToText       (* POST /image-to-text     *)
  | Explainer.        (* POST /explainer         *)

Definition handler (env : Env) (e : Endpoint) : Request -> M unit :=
  match e with
  | GenerateCode => generateCode env
  | MathReasoning => getMathReasoning env
  | CodingTask => solveCodingTask env
  | YoutubeSummarize => summarizeYoutubeVideo env
  | Chat => handleChat env
  | ImageToText => imageToText env
  | Explainer => getExplainer env
  end.

(** ** Vocabulary of the specification

    The tables below are read off the handlers; the lemmas of the next
    part tie each of them back to what the handler does. *)

(** The text-prompt endpoints are the six that read a JSON field. *)
Definition text_prompt (e : Endpoint) : bool :=
  match e with ImageToText => false | _ => true end.

(** The field an endpoint requires: a JSON field for the text-prompt
    endpoints, the multipart field of the upload for image-to-text. *)
Definition required_field (e : Endpoint) : string :=
  match e with
  | YoutubeSummarize => "url"
  | Explainer => "topic"
  | ImageToText => "image"
  | _ => "prompt"
  end.

(** The model a text-prompt endpoint uses when the caller names none; the
    image endpoint has a single fixed model. *)
Definition default_model (e : Endpoint) : string :=
  match e with
  | GenerateCode => "deepseek/deepseek-chat:free"
  | MathReasoning => "microsoft/phi-4-reasoning-plus:free"
  | CodingTask => "thudm/glm-z1-32b:free"
  | YoutubeSummarize => "deepseek/deepseek-chat-v3-0324:free"
  | Chat => "qwen/qwen3-32b:free"
  | ImageToText => "qwen/qwen3-32b:free"
  | Explainer => "deepseek/deepseek-chat:free"
  end.

Definition system_prompt (e : Endpoint) : string :=
  match e with
  | GenerateCode => generateCode_systemPrompt
  | MathReasoning => getMathReasoning_systemPrompt
  | CodingTask => solveCodingTask_systemPrompt
  | YoutubeSummarize => summarizeYoutubeVideo_systemPrompt
  | Chat => handleChat_systemPrompt
  | ImageToText => EmptyString
  | Explainer => getExplainer_systemPrompt
  end.

(** The message of the 400 answer for a missing required field. *)
Definition missing_input_message (e : Endpoint) : string :=
  match e with
  | GenerateCode => "Prompt is required."
  | MathReasoning => "Math problem prompt is required."
  | CodingTask => "Coding task prompt is required."
  | YoutubeSummarize => "YouTube URL is required."
  | Chat => "Prompt is required for chat."
  | ImageToText => "Image file is required."
  | Explainer => "Topic is required."
  end.

(** The property under which a JSON endpoint returns the model's text;
    the code-generation endpoint answers with a download instead. *)
Definition response_field (e : Endpoint) : option string :=
  match e with
  | GenerateCode => None
  | MathReasoning => Some "reasoning"
  | CodingTask => Some "solution"
  | YoutubeSummarize => Some "summary"
  | Chat => Some "response"
  | ImageToText => Some "description"
  | Explainer => Some "explanation"
  end.

(** The four endpoints that are nothing but validate, dispatch, answer. *)
Definition plain (e : Endpoint) : bool :=
  match e with
  | MathReasoning | CodingTask | Chat | Explainer => true
  | _ => false
  end.

Definition no_transcript_message : string :=
  "Could not fetch transcript for this video. It might have transcripts disabled.".
Definition summarize_failure_message : string :=
  "Failed to summarize YouTube video. Please ensure the URL is correct and the video has a transcript.".

(** Membership in the allow-list: only a string that is one of the five. *)
Definition is_allowed (id : value) : Prop :=
  exists s, id = JStr s /\ s ∈ AVAILABLE_MODELS.

(** [sub] occurs in [s]. *)
Definition occurs_in (sub s : string) : Prop :=
  exists pre post, s = pre ++ sub ++ post.

(** A call to the provider. *)
Definition is_upstream_call (ev : Event) : bool :=
  match ev with EvCreate _ _ => true | _ => false end.
Definition is_transcript_call (ev : Event) : bool :=
  match ev with EvFetchTranscript _ => true | _ => false end.

(** The two shapes of an outbound message list. *)
Definition two_message_form (messages : list Message) : Prop :=
  exists (s : string) (u : value),
    messages = [ {| role := "system"; content := JStr s |};
                 {| role := "user"; content := u |} ].

Definition vision_form (messages : list Message) : Prop :=
  exists (dataUrl instruction : string),
    messages =
      [ {| role := "user";
           content :=
             JArr [ JObj [("type", JStr "image_url");
                          ("image_url", JObj [("url", JStr dataUrl)])];
                    JObj [("type", JStr "text"); ("text", JStr instruction)] ] |} ].

(** Where the generated artifact lives. *)
Definition generated_dir (env : Env) : path :=
  path_join (__dirname env) [".."; "generated_code"].
Definition generated_file (env : Env) : path :=
  path_join (generated_dir env) ["index.html"].

(** [existsSync], as a function of the world. *)
Definition exists_in (w : World) (p : path) : bool :=
  bool_decide (p ∈ dirs w) || bool_decide (is_Some (files w !! p)).

(** The world once the directory of the artifact has been made sure of. *)
Definition with_generated_dir (env : Env) (w : World) : World :=
  if exists_in w (generated_dir env) then w
  else {| files := files w; dirs := {[generated_dir env]} ∪ dirs w |}.

Definition mkdir_events (env : Env) (w : World) : list Event :=
  if exists_in w (generated_dir env) then [] else [EvMkdir (generated_dir env)].

(** The console line of a failed transfer. *)
Definition download_log (err : option exn) : list Event :=
  match err with
  | Some e => [EvConsoleError [Lit "Error downloading file:"] e]
  | None => []
  end.

(** ** Further vocabulary: answers, storage events, phases *)

(** An answer to the caller: a JSON body or a download. *)
Definition is_response (ev : Event) : bool :=
  match ev with
  | EvJson _ _ | EvDownload _ _ _ => true
  | _ => false
  end.

(** An action on the file system. *)
Definition is_storage_event (ev : Event) : bool :=
  match ev with
  | EvMkdir _ | EvWrite _ _ | EvRead _ | EvUnlink _ => true
  | _ => false
  end.

(** The status of a JSON answer. *)
Definition has_status (s : nat) (ev : Event) : bool :=
  match ev with
  | EvJson s' _ => Nat.eqb s s'
  | _ => false
  end.

(** The message an endpoint answers when its provider call failed. *)
Definition upstream_answer (e : Endpoint) : string :=
  match e with
  | YoutubeSummarize => summarize_failure_message
  | ImageToText => "Failed to process image."
  | _ => upstream_failure_message
  end.

(** The error messages of its own that an endpoint can put into an
    answer. *)
Definition error_messages (e : Endpoint) : list string :=
  match e with
  | ImageToText => ["Image file is required."; "Failed to process image."]
  | YoutubeSummarize =>
      [missing_input_message YoutubeSummarize; no_transcript_message;
       summarize_failure_message]
  | _ => [missing_input_message e; invalid_model_message; upstream_failure_message]
  end.

(** The artifact can be written: [generated_code] is a directory or is
    not there yet, and [index.html] is not a directory. *)
Definition artifact_path_usable (env : Env) (w : World) : Prop :=
  (generated_file env ∉ dirs w)
  /\ (generated_dir env ∈ dirs w \/ files w !! generated_dir env = None).

(** The error with which [writeFileSync] refuses the artifact, if it
    does, once the directory has been made sure of: the data is not
    text, or the file cannot be opened. *)
Definition write_failure (env : Env) (code : value) (w : World) : option exn :=
  match code with
  | JStr _ => storage_error env (generated_file env) (with_generated_dir env w)
  | v => Some (TypeError (data_type_error_message env v))
  end.

(** The test with which a handler refuses a request at once: a falsy
    required field, or no uploaded file. *)
Definition input_missing (e : Endpoint) (req : Request) : bool :=
  match e with
  | ImageToText => match file req with None => true | Some _ => false end
  | _ => negb (truthy (field req (required_field e)))
  end.

Section Phases.

Variable env : Env.

(** The second half of the [try] block of [generateCode], from the
    directory check to the return of [res.download]: it runs without an
    [await], in one piece, and hands back the transfer that has been
    registered. *)
Definition persist_and_send (code : value) : M (M (M unit)) :=
  let dir := path_join (__dirname env) [".."; "generated_code"] in
  there <- existsSync dir;;
  (if negb there then mkdirSync env dir else ret tt);;
  let filePath := path_join dir ["index.html"] in
  writeFileSync env filePath code;;
  res_download env filePath "index.html"
    (fun err =>
       match err with
       | Some e => console_error [Lit "Error downloading file:"] e
       | None => ret tt
       end;;
       unlinkSync env filePath).


(** The same two requests, one after the other. *)
Definition consecutive_downloads (codeA codeB : value) : M unit :=
  openingA <- persist_and_send codeA;;
  endingA <- openingA;;
  endingA;;
  openingB <- persist_and_send codeB;;
  endingB <- openingB;;
  endingB.

End Phases.

(** ** Sample collaborators, requests and worlds *)

Module Sample.

Definition html : string := "<!DOCTYPE html><html></html>".

Definition completion_of (t : string) : Completion :=
  {| choices := [ {| message_content := JStr t |} ] |}.

Definition segments : list Segment :=
  [ {| text := "Hello"; duration := 1%float; offset := 0%float |};
    {| text := "world"; duration := 2%float; offset := 1%float |} ].

Definition provider_error : exn :=
  {| exn_name := "APIError"; exn_message := "401 No auth credentials found" |}.

(** A platform that writes a path with slashes. *)
Definition spelled (p : path) : string := String.concat "/" p.

(** How that platform describes an argument it refuses. *)
Definition described (v : value) : string :=
  match v with
  | JUndefined => "undefined"
  | JNull => "null"
  | JBool true => "type boolean (true)"
  | JBool false => "type boolean (false)"
  | JNum _ => "type number"
  | JStr _ => "type string"
  | JArr _ => "an instance of Array"
  | JObj _ => "an instance of Object"
  end.

(** Everything works. *)
Definition env_up : Env :=
  {| __dirname := ["srv"; "controllers"];
     chat_completions_create := fun _ _ => Ok (completion_of html);
     fetchTranscript := fun _ => Ok (Some segments);
     transfer := fun _ _ => None;
     path_text := spelled;
     received := described |}.

(** The provider rejects every call. *)
Definition env_down : Env :=
  {| __dirname := ["srv"; "controllers"];
     chat_completions_create := fun _ _ => Throw provider_error;
     fetchTranscript := fun _ => Ok (Some segments);
     transfer := fun _ _ => None;
     path_text := spelled;
     received := described |}.

(** The video has no transcript. *)
Definition env_silent : Env :=
  {| __dirname := ["srv"; "controllers"];
     chat_completions_create := fun _ _ => Ok (completion_of html);
     fetchTranscript := fun _ => Ok (Some []);
     transfer := fun _ _ => None;
     path_text := spelled;
     received := described |}.

Definition upload : UploadedFile :=
  {| file_path := ["uploads"; "1700000000000.png"]; mimetype := "image/png" |}.

Definition empty_world : World := {| files := ∅; dirs := ∅ |}.

Definition world_with_upload : World :=
  {| files := {[ file_path upload := "PNG" ]}; dirs := {[ ["uploads"] ]} |}.

Definition req_prompt (p : string) : Request :=
  {| body := {[ "prompt" := JStr p ]}; file := None |}.

Definition req_prompt_model (p m : string) : Request :=
  {| body := <[ "model" := JStr m ]> {[ "prompt" := JStr p ]}; file := None |}.

Definition req_url (u : string) : Request :=
  {| body := {[ "url" := JStr u ]}; file := None |}.

Definition req_empty : Request := {| body := ∅; file := None |}.

Definition req_image : Request := {| body := ∅; file := Some upload |}.

Definition messages : list Message :=
  [system_message "You are a math tutor."; user_message (JStr "2+2?")].

(** The provider answers with a choice whose content is [null]. *)
Definition env_null : Env :=
  {| __dirname := ["srv"; "controllers"];
     chat_completions_create :=
       fun _ _ => Ok {| choices := [ {| message_content := JNull |} ] |};
     fetchTranscript := fun _ => Ok (Some segments);
     transfer := fun _ _ => None;
     path_text := spelled;
     received := described |}.

(** The provider answers with no choice at all. *)
Definition env_mute : Env :=
  {| __dirname := ["srv"; "controllers"];
     chat_completions_create := fun _ _ => Ok {| choices := [] |};
     fetchTranscript := fun _ => Ok (Some segments);
     transfer := fun _ _ => None;
     path_text := spelled;
     received := described |}.

Definition transcript_error : exn :=
  {| exn_name := "YoutubeTranscriptError";
     exn_message := "Transcript is disabled on this video" |}.

(** The transcript service rejects. *)
Definition env_deaf : Env :=
  {| __dirname := ["srv"; "controllers"];
     chat_completions_create := fun _ _ => Ok (completion_of html);
     fetchTranscript := fun _ => Throw transcript_error;
     transfer := fun _ _ => None;
     path_text := spelled;
     received := described |}.

Definition req_prompt_null_model (p : string) : Request :=
  {| body := <[ "model" := JNull ]> {[ "prompt" := JStr p ]}; file := None |}.

(** A world in which [generated_code] is a regular file. *)
Definition world_blocked : World :=
  {| files := {[ ["srv"; "controllers"; ".."; "generated_code"] := "not a directory" ]};
     dirs := ∅ |}.

End Sample.

(** * Properties *)

(** ** Values and buffers *)

Example truthy_examples :
  truthy (JStr EmptyString) = false /\ truthy (JStr "0") = true /\
  truthy (JNum 0%float) = false /\ truthy (JNum nan) = false /\
  truthy (JNum (-0)%float) = false /\ truthy (JNum 2%float) = true.
Proof. repeat split; reflexivity. Qed.

Example base64_examples :
  base64 "Man" = "TWFu" /\ base64 "Ma" = "TWE=" /\ base64 "M" = "TQ==" /\
  base64 "light work." = "bGlnaHQgd29yay4=" /\ base64 EmptyString = EmptyString.
Proof. repeat split; reflexivity. Qed.

(** ** The allow-list *)

Lemma includes_true (l : list string) (v : value) :
  includes l v = true <-> exists s, v = JStr s /\ s ∈ l.
Proof.
  split.
  - destruct v; simpl; try discriminate.
    intros H. apply existsb_exists in H as (x & Hin & Heq).
    apply String.eqb_eq in Heq. subst x.
    exists s. split; [reflexivity | by apply list_elem_of_In].
  - intros (s & -> & Hin). simpl. apply existsb_exists.
    exists s. split; [by apply list_elem_of_In | apply String.eqb_refl].
Qed.

Lemma includes_is_allowed (v : value) :
  includes AVAILABLE_MODELS v = true <-> is_allowed v.
Proof. apply includes_true. Qed.

Lemma includes_not_allowed (v : value) :
  includes AVAILABLE_MODELS v = false <-> ~ is_allowed v.
Proof.
  rewrite <- includes_is_allowed.
  destruct (includes AVAILABLE_MODELS v); split; intros; congruence.
Qed.

(** ** Strings *)

Lemma append_cons (x : Ascii.ascii) (a b : string) :
  String x a ++ b = String x (a ++ b).
Proof. reflexivity. Qed.

Lemma append_nil_r (s : string) : s ++ EmptyString = s.
Proof.
  induction s as [|x s IH]; [reflexivity | by rewrite append_cons, IH].
Qed.

Lemma string_app_assoc (a b c : string) : (a ++ b) ++ c = a ++ (b ++ c).
Proof.
  induction a as [|x a IH]; [reflexivity | by rewrite !append_cons, IH].
Qed.

Lemma occurs_in_refl (s : string) : occurs_in s s.
Proof.
  exists EmptyString, EmptyString.
  change (s = s ++ EmptyString). by rewrite append_nil_r.
Qed.

Lemma occurs_in_prefix (pre sub s : string) :
  occurs_in sub s -> occurs_in sub (pre ++ s).
Proof.
  intros (a & b & ->). exists (pre ++ a), b. by rewrite string_app_assoc.
Qed.

Lemma occurs_in_suffix (post sub s : string) :
  occurs_in sub s -> occurs_in sub (s ++ post).
Proof.
  intros (a & b & ->). exists a, (b ++ post). by rewrite !string_app_assoc.
Qed.

(** Every element of a joined list occurs in the result. *)
Lemma join_occurs (sep : string) (l : list string) (x : string) :
  x ∈ l -> occurs_in x (join sep l).
Proof.
  unfold join. induction l as [|y l IH]; intros Hin.
  - by apply elem_of_nil in Hin.
  - apply elem_of_cons in Hin as [-> | Hin].
    + destruct l as [|z l]; simpl.
      * apply occurs_in_refl.
      * apply occurs_in_suffix, occurs_in_refl.
    + destruct l as [|z l]; [by apply elem_of_nil in Hin |].
      change (String.concat sep (y :: z :: l))
        with (y ++ sep ++ String.concat sep (z :: l)).
      by apply occurs_in_prefix, occurs_in_prefix, IH.
Qed.

Lemma invalid_model_message_enumerates (id : string) :
  id ∈ AVAILABLE_MODELS -> occurs_in id invalid_model_message.
Proof. intros H. by apply occurs_in_prefix, join_occurs. Qed.

(** ** The dispatch helper *)

Section Dispatch.

Variable env : Env.

(** What [callAI] does, case by case: the world is never changed, and
    the trace starts with the call itself. *)
Lemma callAI_rejected (model : value) (messages : list Message) (w : World) :
  includes AVAILABLE_MODELS model = false ->
  callAI env model messages w
  = (Throw (Error invalid_model_message), w, [EvCallAI model messages]).
Proof. intros H. unfold callAI, bind, emit. simpl. by rewrite H. Qed.

Lemma callAI_forwarded (model : value) (messages : list Message) (w : World) :
  includes AVAILABLE_MODELS model = true ->
  callAI env model messages w
  = match chat_completions_create env model messages with
    | Ok c =>
        match choices c with
        | ch :: _ =>
            (Ok (message_content ch), w,
             [EvCallAI model messages; EvCreate model messages])
        | [] =>
            (Throw (Error upstream_failure_message), w,
             [EvCallAI model messages; EvCreate model messages;
              EvConsoleError [Lit "Error calling AI model "; Hole model; Lit ":"]
                (TypeError "Cannot read properties of undefined (reading 'message')")])
        end
    | Throw e =>
        (Throw (Error upstream_failure_message), w,
         [EvCallAI model messages; EvCreate model messages;
          EvConsoleError [Lit "Error calling AI model "; Hole model; Lit ":"] e])
    end.
Proof.
  intros H.
  unfold callAI, bind, emit, try_catch, create, first_choice_content,
    console_error, emit, throw, ret.
  simpl. rewrite H. simpl.
  destruct (chat_completions_create env model messages) as [c|e]; simpl;
    [destruct (choices c) as [|ch rest]|]; reflexivity.
Qed.

(** [callAI] leaves the file system alone. *)
Lemma callAI_world (model : value) (messages : list Message) (w : World) :
  world (callAI env model messages w) = w.
Proof.
  destruct (includes AVAILABLE_MODELS model) eqn:H.
  - rewrite callAI_forwarded by done.
    destruct (chat_completions_create env model messages) as [c|e];
      [destruct (choices c)|]; reflexivity.
  - by rewrite callAI_rejected.
Qed.

(** The only provider call [callAI] can make carries its own arguments. *)
Lemma callAI_upstream (model : value) (messages : list Message) (w : World)
    (m : value) (ms : list Message) :
  EvCreate m ms ∈ trace (callAI env model messages w) ->
  m = model /\ ms = messages /\ is_allowed model.
Proof.
  destruct (includes AVAILABLE_MODELS model) eqn:H.
  - rewrite callAI_forwarded by done. apply includes_is_allowed in H.
    destruct (chat_completions_create env model messages) as [c|e];
      [destruct (choices c)|]; unfold trace; simpl; intros Hin;
      repeat (apply elem_of_cons in Hin as [Hin|Hin]; [try discriminate|]);
      try (by apply elem_of_nil in Hin); by inversion Hin.
  - rewrite callAI_rejected by done. unfold trace; simpl. intros Hin.
    apply elem_of_cons in Hin as [Hin|Hin]; [discriminate|].
    by apply elem_of_nil in Hin.
Qed.

(** C1. For every model identifier that is not in the allow-list
    [AVAILABLE_MODELS] and every message list, [callAI] fails with the
    InvalidModel error, whose message enumerates the allowed identifiers
    (each of them occurs in it), and no call to the provider is made:
    the trace holds the entry into [callAI] and nothing else, and the
    world is unchanged. *)
Theorem callAI_invalid_model (model : value) (messages : list Message) (w : World) :
  ~ is_allowed model ->
  callAI env model messages w
  = (Throw (Error invalid_model_message), w, [EvCallAI model messages])
  /\ invalid_model_message
     = "Invalid model. Choose from: microsoft/phi-4-reasoning-plus:free, thudm/glm-z1-32b:free, deepseek/deepseek-chat-v3-0324:free, deepseek/deepseek-chat:free, qwen/qwen3-32b:free"
  /\ (forall id, id ∈ AVAILABLE_MODELS -> occurs_in id invalid_model_message)
  /\ filter is_upstream_call (trace (callAI env model messages w)) = [].
Proof.
  intros H. apply includes_not_allowed in H.
  rewrite callAI_rejected by done.
  split; [reflexivity|]. split; [reflexivity|].
  split; [apply invalid_model_message_enumerates | reflexivity].
Qed.

(** C2. For every model identifier in the allow-list and every message
    list, when the provider answers with a completion, [callAI] returns
    the [message.content] of its first choice as it is, after exactly
    one call to the provider with the model and the messages given. *)
Theorem callAI_first_choice (model : value) (messages : list Message) (w : World)
    (c : Completion) (ch : Choice) (rest : list Choice) :
  is_allowed model ->
  chat_completions_create env model messages = Ok c ->
  choices c = ch :: rest ->
  callAI env model messages w
  = (Ok (message_content ch), w,
     [EvCallAI model messages; EvCreate model messages]).
Proof.
  intros Hal Hc Hch. apply includes_is_allowed in Hal.
  rewrite callAI_forwarded by done. by rewrite Hc, Hch.
Qed.

(** C8. For every allowed model and every message list, when the call
    to the provider fails with an error [e], [callAI] fails with the
    generic error "Failed to get response from AI model.", the same
    whatever [e] is, and [e] itself goes to the console, with the model
    named in the label. *)
Theorem callAI_upstream_failure (model : value) (messages : list Message)
    (w : World) (e : exn) :
  is_allowed model ->
  chat_completions_create env model messages = Throw e ->
  callAI env model messages w
  = (Throw (Error "Failed to get response from AI model."), w,
     [EvCallAI model messages; EvCreate model messages;
      EvConsoleError [Lit "Error calling AI model "; Hole model; Lit ":"] e]).
Proof.
  intros Hal He. apply includes_is_allowed in Hal.
  rewrite callAI_forwarded by done. by rewrite He.
Qed.

End Dispatch.

(** ** Running a sequence and a [try] block *)

Lemma bind_ok {A B} (m : M A) (k : A -> M B) (w w1 : World) (a : A) (t1 : list Event) :
  m w = (Ok a, w1, t1) ->
  bind m k w = (result (k a w1), world (k a w1), (t1 ++ trace (k a w1))%list).
Proof.
  intros H. unfold bind, result, world, trace. rewrite H.
  by destruct (k a w1) as [[r w2] t2].
Qed.

Lemma bind_throw {A B} (m : M A) (k : A -> M B) (w w1 : World) (e : exn) (t1 : list Event) :
  m w = (Throw e, w1, t1) -> bind m k w = (Throw e, w1, t1).
Proof. intros H. unfold bind. by rewrite H. Qed.

Lemma try_catch_ok {A} (m : M A) (h : exn -> M A) (w w1 : World) (a : A) (t1 : list Event) :
  m w = (Ok a, w1, t1) -> try_catch m h w = (Ok a, w1, t1).
Proof. intros H. unfold try_catch. by rewrite H. Qed.

Lemma try_catch_throw {A} (m : M A) (h : exn -> M A) (w w1 : World) (e : exn) (t1 : list Event) :
  m w = (Throw e, w1, t1) ->
  try_catch m h w = (result (h e w1), world (h e w1), (t1 ++ trace (h e w1))%list).
Proof.
  intros H. unfold try_catch, result, world, trace. rewrite H.
  by destruct (h e w1) as [[r w2] t2].
Qed.

Lemma run_eta {A} (r : Result A * World * list Event) :
  r = (result r, world r, trace r).
Proof. by destruct r as [[? ?] ?]. Qed.

(** ** Reading the request *)

Lemma field_absent (req : Request) (f : string) :
  body req !! f = None -> field req f = JUndefined.
Proof. intros H. unfold field. by rewrite H. Qed.

Lemma field_present (req : Request) (f : string) (v : value) :
  body req !! f = Some v -> field req f = v.
Proof. intros H. unfold field. by rewrite H. Qed.

Lemma field_default_absent (req : Request) (f d : string) :
  body req !! f = None -> field_default req f d = JStr d.
Proof. intros H. unfold field_default. by rewrite field_absent. Qed.

Lemma field_default_string (req : Request) (f d s : string) :
  body req !! f = Some (JStr s) -> field_default req f d = JStr s.
Proof. intros H. unfold field_default. by rewrite (field_present _ _ _ H). Qed.

Lemma missing_not_truthy (req : Request) (f : string) :
  body req !! f = None \/ body req !! f = Some (JStr EmptyString) ->
  truthy (field req f) = false.
Proof.
  intros [H|H]; [by rewrite field_absent | by rewrite (field_present _ _ _ H)].
Qed.

(** ** The endpoint handlers *)

Section Handlers.

Variable env : Env.

(** C6. For each of the six text-prompt endpoints, a request whose
    required field ([prompt], [topic] or [url]) is absent or the empty
    string is answered with status 400 and the endpoint's MissingInput
    message, and that answer is the whole run: no call to the provider
    and no transcript fetch is made, and the file system is untouched. *)
Theorem missing_input (e : Endpoint) (req : Request) (w : World) :
  text_prompt e = true ->
  body req !! required_field e = None
  \/ body req !! required_field e = Some (JStr EmptyString) ->
  handler env e req w
  = (Ok tt, w, [EvJson 400 (error_payload (missing_input_message e))])
  /\ filter is_upstream_call (trace (handler env e req w)) = []
  /\ filter is_transcript_call (trace (handler env e req w)) = [].
Proof.
  intros He Hf. apply missing_not_truthy in Hf.
  assert (handler env e req w
          = (Ok tt, w, [EvJson 400 (error_payload (missing_input_message e))])) as ->.
  { destruct e; try discriminate He; simpl in Hf; simpl;
      unfold generateCode, getMathReasoning, solveCodingTask,
        summarizeYoutubeVideo, handleChat, getExplainer;
      rewrite Hf; reflexivity. }
  repeat split.
Qed.

End Handlers.

Section Runs.

Variable env : Env.

(** The four plain endpoints: one dispatch, then the answer. *)
Lemma plain_handler_run (e : Endpoint) (req : Request) (w : World) (key : string) :
  plain e = true ->
  response_field e = Some key ->
  truthy (field req (required_field e)) = true ->
  let call :=
    callAI env (field_default req "model" (default_model e))
      [system_message (system_prompt e);
       user_message (field req (required_field e))] w in
  handler env e req w
  = (Ok tt, w,
     (trace call ++
      [match result call with
       | Ok v => EvJson 200 (JObj [(key, v)])
       | Throw er => EvJson 500 (error_payload (exn_message er))
       end])%list).
Proof.
  intros He Hk Hf call. subst call.
  set (model := field_default req "model" (default_model e)).
  set (messages := [system_message (system_prompt e);
                    user_message (field req (required_field e))]).
  pose proof (callAI_world env model messages w) as Hw.
  destruct (callAI env model messages w) as [[r w1] t] eqn:Hcall.
  unfold world in Hw; simpl in Hw; subst w1. unfold trace, result; simpl.
  destruct e; try discriminate He; simpl in *; injection Hk as <-;
    unfold getMathReasoning, solveCodingTask, handleChat, getExplainer;
    rewrite Hf; simpl; fold model; fold messages.
  all: destruct r as [v|er].
  all: try (erewrite try_catch_ok; [reflexivity|];
            erewrite bind_ok; [|exact Hcall]; reflexivity).
  all: erewrite try_catch_throw; [|erewrite bind_throw; [reflexivity|exact Hcall]];
    reflexivity.
Qed.

(** The code-generation endpoint: dispatch, then persist, send and
    remove the artifact; a result that is not text, or a path that
    cannot be opened, ends in the [catch]. *)
Lemma generateCode_run (req : Request) (w : World) :
  truthy (field req "prompt") = true ->
  let call :=
    callAI env (field_default req "model" "deepseek/deepseek-chat:free")
      [system_message generateCode_systemPrompt;
       user_message (field req "prompt")] w in
  generateCode env req w
  = match result call with
    | Throw er =>
        (Ok tt, w,
         (trace call ++ [EvJson 500 (error_payload (exn_message er))])%list)
    | Ok code =>
        match write_failure env code w with
        | Some er =>
            (Ok tt, with_generated_dir env w,
             (trace call ++ mkdir_events env w
                ++ [EvJson 500 (error_payload (exn_message er))])%list)
        | None =>
            let T := match code with JStr T => T | _ => EmptyString end in
            let err := transfer env (generated_file env) T in
            (Ok tt,
             {| files := delete (generated_file env)
                           (<[generated_file env := T]> (files w));
                dirs := dirs (with_generated_dir env w) |},
             (trace call ++ mkdir_events env w
                ++ [EvWrite (generated_file env) T; EvDownload "index.html" T err]
                ++ download_log err ++ [EvUnlink (generated_file env)])%list)
        end
    end.
Proof.
  intros Hf call. subst call.
  set (model := field_default req "model" "deepseek/deepseek-chat:free").
  set (messages := [system_message generateCode_systemPrompt;
                    user_message (field req "prompt")]).
  pose proof (callAI_world env model messages w) as Hw.
  unfold generateCode. rewrite Hf. simpl. fold model. fold messages.
  destruct (callAI env model messages w) as [[r w1] t] eqn:Hcall.
  unfold world in Hw; simpl in Hw; subst w1. unfold trace, result; simpl.
  unfold bind at 1. unfold bind at 1. unfold try_catch. unfold bind at 1.
  rewrite Hcall.
  destruct r as [code|er];
    [|unfold bind, res_json, emit, ret; simpl; by rewrite app_nil_r].
  unfold write_failure, with_generated_dir, mkdir_events, generated_file,
    generated_dir, existsSync, mkdirSync, exists_in, res_download, writeFileSync,
    unlinkSync, console_error, res_json, emit, bind, ret.
  cbv beta.
  destruct (bool_decide (path_join (__dirname env) [".."; "generated_code"] ∈ dirs w)
            || bool_decide (is_Some (files w !! path_join (__dirname env) [".."; "generated_code"]))) eqn:Hex;
    simpl; rewrite ?Hex; simpl; destruct code; simpl;
    rewrite ?app_nil_r, <- ?app_assoc; try reflexivity.
  all: match goal with
       | |- context [storage_error env ?p ?w0] =>
           destruct (storage_error env p w0) as [er|] eqn:Hse
       end; simpl; rewrite ?lookup_insert_eq; simpl;
    try destruct (transfer env _ _); simpl;
    rewrite ?lookup_insert_eq, ?app_nil_r, <- ?app_assoc; reflexivity.
Qed.

(** The YouTube endpoint: the transcript first, then the dispatch. *)
Lemma summarizeYoutubeVideo_run (req : Request) (w : World) :
  truthy (field req "url") = true ->
  summarizeYoutubeVideo env req w
  = match fetchTranscript env (field req "url") with
    | Throw er =>
        (Ok tt, w,
         [EvFetchTranscript (field req "url"); EvConsoleError [] er;
          EvJson 500 (error_payload summarize_failure_message)])
    | Ok None | Ok (Some []) =>
        (Ok tt, w,
         [EvFetchTranscript (field req "url");
          EvJson 404 (error_payload no_transcript_message)])
    | Ok (Some items) =>
        let call :=
          callAI env
            (field_default req "model" "deepseek/deepseek-chat-v3-0324:free")
            [system_message summarizeYoutubeVideo_systemPrompt;
             user_message (JStr ("Transcript: " ++ join " " (map text items)))]
            w in
        (Ok tt, w,
         (EvFetchTranscript (field req "url") :: trace call ++
          match result call with
          | Ok v => [EvJson 200 (JObj [("summary", v)])]
          | Throw er =>
              [EvConsoleError [] er;
               EvJson 500 (error_payload summarize_failure_message)]
          end)%list)
    end.
Proof.
  intros Hf. unfold summarizeYoutubeVideo. rewrite Hf. simpl.
  unfold try_catch, bind at 1, fetch_transcript.
  destruct (fetchTranscript env (field req "url")) as [[[|seg items]|]|er];
    try reflexivity.
  match goal with
  | |- context [callAI env ?m ?ms w] =>
      pose proof (callAI_world env m ms w) as Hw;
      destruct (callAI env m ms w) as [[r w1] t] eqn:Hcall
  end.
  unfold world in Hw; simpl in Hw; subst w1.
  unfold bind. rewrite Hcall. unfold trace, result. simpl.
  destruct r as [v|er]; simpl; rewrite ?app_nil_r, <- ?app_assoc; reflexivity.
Qed.

(** The image endpoint: read, ask, remove, answer. *)
Lemma imageToText_run (req : Request) (w : World) (f : UploadedFile) :
  file req = Some f ->
  imageToText env req w
  = match files w !! file_path f with
    | None =>
        (Ok tt, w,
         [EvConsoleError [Lit "Image processing error:"]
            (ENOENT env "open" (file_path f));
          EvJson 500 (error_payload "Failed to process image.")])
    | Some data =>
        let messages :=
          [user_message
             (vision_content ("data:" ++ mimetype f ++ ";base64," ++ base64 data))] in
        let model := JStr "qwen/qwen3-32b:free" in
        match chat_completions_create env model messages with
        | Throw er =>
            (Ok tt, w,
             [EvRead (file_path f); EvCreate model messages;
              EvConsoleError [Lit "Image processing error:"] er;
              EvJson 500 (error_payload "Failed to process image.")])
        | Ok c =>
            (Ok tt,
             {| files := delete (file_path f) (files w); dirs := dirs w |},
             [EvRead (file_path f); EvCreate model messages;
              EvUnlink (file_path f)] ++
             match choices c with
             | ch :: _ => [EvJson 200 (JObj [("description", message_content ch)])]
             | [] =>
                 [EvConsoleError [Lit "Image processing error:"]
                    (TypeError "Cannot read properties of undefined (reading 'message')");
                  EvJson 500 (error_payload "Failed to process image.")]
             end)%list
        end
    end.
Proof.
  intros Hfile. unfold imageToText. rewrite Hfile.
  unfold try_catch, bind, readFileSync, create, unlinkSync,
    first_choice_content, console_error, res_json, emit, ret, throw.
  destruct (files w !! file_path f) as [data|] eqn:Hread; [|reflexivity].
  simpl.
  destruct (chat_completions_create env _ _) as [c|er]; [|reflexivity].
  rewrite Hread. destruct (choices c) as [|ch rest]; reflexivity.
Qed.

End Runs.

(** ** What a run of [callAI] can contain *)

Section DispatchTrace.

Variable env : Env.

Lemma callAI_trace_head (model : value) (messages : list Message) (w : World) :
  exists rest,
    trace (callAI env model messages w) = EvCallAI model messages :: rest
    /\ forall m ms, EvCallAI m ms ∉ rest.
Proof.
  destruct (includes AVAILABLE_MODELS model) eqn:H.
  - rewrite callAI_forwarded by done.
    destruct (chat_completions_create env model messages) as [c|e];
      [destruct (choices c)|]; unfold trace; simpl;
      eexists; (split; [reflexivity|]); intros m ms Hin;
      repeat (apply elem_of_cons in Hin as [Hin|Hin]; [discriminate|]);
      by apply elem_of_nil in Hin.
  - rewrite callAI_rejected by done. exists []. split; [reflexivity|].
    intros m ms Hin. by apply elem_of_nil in Hin.
Qed.

Lemma callAI_entry (model : value) (messages : list Message) (w : World)
    (m : value) (ms : list Message) :
  EvCallAI m ms ∈ trace (callAI env model messages w) ->
  m = model /\ ms = messages.
Proof.
  destruct (callAI_trace_head model messages w) as (rest & -> & Hrest).
  intros Hin. apply elem_of_cons in Hin as [Hin|Hin]; [by inversion Hin|].
  by apply Hrest in Hin.
Qed.

(** [callAI] answers nothing itself. *)
Lemma callAI_no_response (model : value) (messages : list Message) (w : World)
    (s : nat) (payload : value) :
  EvJson s payload ∉ trace (callAI env model messages w).
Proof.
  destruct (includes AVAILABLE_MODELS model) eqn:H.
  - rewrite callAI_forwarded by done.
    destruct (chat_completions_create env model messages) as [c|e];
      [destruct (choices c)|]; unfold trace; simpl; intros Hin;
      repeat (apply elem_of_cons in Hin as [Hin|Hin]; [discriminate|]);
      by apply elem_of_nil in Hin.
  - rewrite callAI_rejected by done. unfold trace; simpl. intros Hin.
    apply elem_of_cons in Hin as [Hin|Hin]; [discriminate|].
    by apply elem_of_nil in Hin.
Qed.

(** With an allowed model the only failure is the generic one. *)
Lemma callAI_allowed_error (model : value) (messages : list Message) (w : World)
    (er : exn) :
  is_allowed model ->
  result (callAI env model messages w) = Throw er ->
  er = Error upstream_failure_message.
Proof.
  intros Hal. apply includes_is_allowed in Hal.
  rewrite callAI_forwarded by done.
  destruct (chat_completions_create env model messages) as [c|e];
    [destruct (choices c)|]; unfold result; simpl; congruence.
Qed.

Lemma callAI_rejected_iff (model : value) (messages : list Message) (w : World) :
  result (callAI env model messages w) = Throw (Error invalid_model_message)
  <-> ~ is_allowed model.
Proof.
  split.
  - intros Hr Hal. apply (callAI_allowed_error _ _ _ _ Hal) in Hr.
    discriminate Hr.
  - intros Hn. apply includes_not_allowed in Hn.
    by rewrite callAI_rejected.
Qed.

End DispatchTrace.

Lemma default_model_in_list (e : Endpoint) : default_model e ∈ AVAILABLE_MODELS.
Proof.
  apply list_elem_of_In. destruct e; simpl; tauto.
Qed.

Lemma default_model_is_allowed (e : Endpoint) : is_allowed (JStr (default_model e)).
Proof. exists (default_model e). split; [reflexivity | apply default_model_in_list]. Qed.

(** Taking a membership in a trace apart. *)
Ltac in_trace :=
  repeat match goal with
    | H : _ ∈ (_ ++ _)%list |- _ => apply elem_of_app in H as [H|H]
    | H : _ ∈ _ :: _ |- _ => apply elem_of_cons in H as [H|H]
    | H : _ ∈ [] |- _ => by apply elem_of_nil in H
    | H : _ ∈ match ?x with _ => _ end |- _ => destruct x eqn:?
    | H : _ = match ?x with _ => _ end |- _ => destruct x eqn:?
    | H : EvCreate _ _ = _ |- _ => try discriminate H; injection H as -> ->
    | H : EvCallAI _ _ = _ |- _ => try discriminate H; injection H as -> ->
    | H : EvJson _ _ = _ |- _ => try discriminate H
    end.

Section Invariants.

Variable env : Env.

Lemma two_message_form_intro (s : string) (u : value) :
  two_message_form [system_message s; user_message u].
Proof. by exists s, u. Qed.

Lemma missing_field_run (e : Endpoint) (req : Request) (w : World) :
  text_prompt e = true ->
  truthy (field req (required_field e)) = false ->
  handler env e req w
  = (Ok tt, w, [EvJson 400 (error_payload (missing_input_message e))]).
Proof.
  intros He Hf.
  destruct e; try discriminate He; simpl in Hf; simpl;
    unfold generateCode, getMathReasoning, solveCodingTask,
      summarizeYoutubeVideo, handleChat, getExplainer;
    rewrite Hf; reflexivity.
Qed.

Lemma plain_response_field (e : Endpoint) :
  plain e = true -> exists key, response_field e = Some key /\ key <> "error".
Proof. destruct e; try discriminate; by eexists. Qed.

(** A text-prompt handler reaches the provider only through its one
    call of [callAI], made with the endpoint's system instruction. *)
Lemma text_handler_dispatches (e : Endpoint) (req : Request) (w : World)
    (ev : Event) :
  text_prompt e = true ->
  (exists m ms, ev = EvCreate m ms \/ ev = EvCallAI m ms) ->
  ev ∈ trace (handler env e req w) ->
  exists u,
    ev ∈ trace (callAI env (field_default req "model" (default_model e))
                  [system_message (system_prompt e); user_message u] w).
Proof.
  intros He (m & ms & Hev) Hin.
  destruct (truthy (field req (required_field e))) eqn:Hf.
  2:{ rewrite (missing_field_run e req w He Hf) in Hin.
      unfold trace in Hin; simpl in Hin.
      destruct Hev; subst ev; in_trace. }
  destruct (plain e) eqn:Hp.
  - destruct (plain_response_field e Hp) as (key & Hk & _).
    rewrite (plain_handler_run env e req w key Hp Hk Hf) in Hin.
    unfold trace at 1 in Hin; simpl in Hin.
    apply elem_of_app in Hin as [Hin|Hin]; [eauto|].
    destruct Hev; subst ev; in_trace.
  - destruct e; try discriminate He; try discriminate Hp.
    + simpl in Hf. simpl handler in Hin.
      rewrite (generateCode_run env req w Hf) in Hin. cbv zeta in Hin.
      match type of Hin with
      | context [result ?c] => destruct (result c) as [code|er] eqn:Hr
      end; [destruct (write_failure env code w) as [er|]|];
        unfold trace at 1 in Hin; simpl in Hin;
        unfold mkdir_events, download_log in Hin;
        (apply elem_of_app in Hin as [Hin|Hin]; [eauto|]);
        destruct Hev; subst ev; in_trace.
    + simpl in Hf. simpl handler in Hin.
      rewrite (summarizeYoutubeVideo_run env req w Hf) in Hin.
      destruct (fetchTranscript env (field req "url")) as [[[|seg items]|]|er];
        unfold trace at 1 in Hin; simpl in Hin.
      * destruct Hev; subst ev; in_trace.
      * apply elem_of_cons in Hin as [->|Hin]; [by destruct Hev|].
        apply elem_of_app in Hin as [Hin|Hin]; [eauto|].
        destruct Hev; subst ev; in_trace.
      * destruct Hev; subst ev; in_trace.
      * destruct Hev; subst ev; in_trace.
Qed.

(** The messages of the platform's errors begin with their code, or
    with "The": none is the InvalidModel message. *)
Lemma write_failure_is_not_invalid_model (code : value) (w : World) (er : exn) :
  write_failure env code w = Some er ->
  exn_message er <> invalid_model_message.
Proof.
  intros Hwf Hmsg.
  assert (String.get 0 (exn_message er) <> String.get 0 invalid_model_message)
    as Hhead; [|by rewrite Hmsg in Hhead].
  clear Hmsg. unfold write_failure, storage_error in Hwf.
  destruct code; try (injection Hwf as <-; cbv; discriminate).
  destruct (bool_decide (generated_file env ∈ _));
    [injection Hwf as <-; cbv; discriminate|].
  destruct (bool_decide (dirname _ ∈ _)); [discriminate Hwf|].
  destruct (bool_decide (is_Some _)); injection Hwf as <-; cbv; discriminate.
Qed.

(** The error answers of a text-prompt handler: its own fixed
    messages, the message of the error [callAI] threw, or the message of
    the error [writeFileSync] threw. *)
Lemma text_handler_error_answer (e : Endpoint) (req : Request) (w : World)
    (s : nat) (msg : string) :
  text_prompt e = true ->
  EvJson s (error_payload msg) ∈ trace (handler env e req w) ->
  (s = 400 /\ msg = missing_input_message e)
  \/ (s = 404 /\ msg = no_transcript_message)
  \/ (s = 500 /\ msg = summarize_failure_message)
  \/ (s = 500 /\ e = GenerateCode /\
      exists code er, write_failure env code w = Some er /\ msg = exn_message er)
  \/ (s = 500 /\ e <> YoutubeSummarize /\
      exists u er,
        result (callAI env (field_default req "model" (default_model e))
                  [system_message (system_prompt e); user_message u] w)
        = Throw er
        /\ msg = exn_message er).
Proof.
  intros He Hin.
  destruct (truthy (field req (required_field e))) eqn:Hf.
  2:{ rewrite (missing_field_run e req w He Hf) in Hin.
      unfold trace in Hin; simpl in Hin. in_trace.
      injection Hin as -> ->. by left. }
  destruct (plain e) eqn:Hp.
  - destruct (plain_response_field e Hp) as (key & Hk & Hne).
    rewrite (plain_handler_run env e req w key Hp Hk Hf) in Hin.
    unfold trace at 1 in Hin; simpl in Hin.
    apply elem_of_app in Hin as [Hin|Hin]; [by apply callAI_no_response in Hin|].
    in_trace.
    + injection Hin as -> Hkey. congruence.
    + injection Hin as -> ->. do 4 right.
      split; [reflexivity|]. split; [by destruct e|]. eauto.
  - destruct e; try discriminate He; try discriminate Hp.
    + simpl in Hf. simpl handler in Hin.
      rewrite (generateCode_run env req w Hf) in Hin. cbv zeta in Hin.
      match type of Hin with
      | context [result ?c] => destruct (result c) as [code|er] eqn:Hr
      end; [destruct (write_failure env code w) as [er|] eqn:Hwf|];
        unfold trace at 1 in Hin; simpl in Hin;
        unfold mkdir_events, download_log in Hin;
        (apply elem_of_app in Hin as [Hin|Hin];
         [by apply callAI_no_response in Hin|]);
        in_trace; injection Hin as -> ->.
      all: try (right; right; right; left;
                split; [reflexivity|]; split; [reflexivity|]; by eauto).
      do 4 right. split; [reflexivity|]. split; [discriminate|]. eauto.
    + simpl in Hf. simpl handler in Hin.
      rewrite (summarizeYoutubeVideo_run env req w Hf) in Hin.
      destruct (fetchTranscript env (field req "url")) as [[[|seg items]|]|er];
        unfold trace at 1 in Hin; simpl in Hin.
      * in_trace. injection Hin as -> ->. right; left. by split.
      * apply elem_of_cons in Hin as [Hin|Hin]; [discriminate|].
        apply elem_of_app in Hin as [Hin|Hin];
          [by apply callAI_no_response in Hin|].
        in_trace. injection Hin as -> ->. right; right; left. by split.
      * in_trace. injection Hin as -> ->. right; left. by split.
      * in_trace. injection Hin as -> ->. right; right; left. by split.
Qed.

End Invariants.

(** ** The artifact and its directory *)

Lemma generated_file_is_not_dir (env : Env) : generated_file env <> generated_dir env.
Proof.
  unfold generated_file, path_join. intros H.
  apply (f_equal length) in H. rewrite length_app in H. simpl in H. lia.
Qed.

Lemma with_generated_dir_exists (env : Env) (w : World) :
  exists_in (with_generated_dir env w) (generated_dir env) = true.
Proof.
  unfold with_generated_dir.
  destruct (exists_in w (generated_dir env)) eqn:Hex; [exact Hex|].
  unfold exists_in; simpl. apply orb_true_intro. left.
  apply bool_decide_eq_true. set_solver.
Qed.

Lemma artifact_dirname (env : Env) :
  dirname (generated_file env) = generated_dir env.
Proof. unfold dirname, generated_file, path_join. apply removelast_last. Qed.

Lemma with_generated_dir_files (env : Env) (w : World) :
  files (with_generated_dir env w) = files w.
Proof. unfold with_generated_dir. by case_match. Qed.

(** The artifact can be opened for writing, once the directory has been
    made sure of, exactly when its path is usable. *)
Lemma storage_error_usable (env : Env) (w : World) :
  artifact_path_usable env w ->
  storage_error env (generated_file env) (with_generated_dir env w) = None.
Proof.
  intros (Hfile & Hdir). unfold storage_error. rewrite artifact_dirname.
  pose proof (generated_file_is_not_dir env) as Hne.
  unfold with_generated_dir, exists_in.
  destruct (bool_decide (generated_dir env ∈ dirs w)) eqn:Hd; simpl.
  - rewrite bool_decide_eq_false_2 by done. by rewrite Hd.
  - apply bool_decide_eq_false in Hd. destruct Hdir as [Hdir|Hdir]; [done|].
    rewrite Hdir. rewrite (bool_decide_eq_false_2 (is_Some None))
      by (intros [? ?]; discriminate).
    simpl.
    rewrite bool_decide_eq_false_2
      by (intros [Heq%elem_of_singleton|Hin]%elem_of_union;
          [by apply Hne | by apply Hfile]).
    rewrite bool_decide_eq_true_2
      by (apply elem_of_union; left; by apply elem_of_singleton).
    reflexivity.
Qed.

Lemma storage_error_not_usable (env : Env) (w : World) :
  ~ artifact_path_usable env w ->
  exists er,
    storage_error env (generated_file env) (with_generated_dir env w) = Some er.
Proof.
  intros Hnot. unfold storage_error. rewrite artifact_dirname.
  pose proof (generated_file_is_not_dir env) as Hne.
  destruct (bool_decide (generated_file env ∈ dirs (with_generated_dir env w)))
    eqn:Hf; [by eexists|].
  apply bool_decide_eq_false in Hf.
  assert (generated_file env ∉ dirs w) as Hf'.
  { intros Hin. apply Hf. unfold with_generated_dir. case_match; set_solver. }
  destruct (bool_decide (generated_dir env ∈ dirs (with_generated_dir env w)))
    eqn:Hd; [|repeat case_match; by eexists].
  exfalso. apply Hnot. split; [exact Hf'|].
  apply bool_decide_eq_true in Hd. revert Hd.
  unfold with_generated_dir, exists_in.
  destruct (bool_decide (generated_dir env ∈ dirs w)) eqn:Hd'; simpl.
  - intros _. left. by apply bool_decide_eq_true in Hd'.
  - destruct (files w !! generated_dir env) eqn:Hlook.
    + rewrite bool_decide_eq_true_2 by eauto. apply bool_decide_eq_false in Hd'.
      intros Hin. done.
    + intros _. by right.
Qed.

(** ** Properties of the endpoints *)

Section Endpoints.

Variable env : Env.

(** C9. Every call to the provider made by a handler carries exactly
    one system message followed by exactly one user message (and an
    allowed model); the image-to-text handler is the exception: its
    call carries a single user message whose content is an image
    reference followed by a text part, and no system message. *)
Theorem outbound_call_shape (e : Endpoint) (req : Request) (w : World)
    (model : value) (messages : list Message) :
  EvCreate model messages ∈ trace (handler env e req w) ->
  match e with
  | ImageToText => vision_form messages
  | _ => two_message_form messages /\ is_allowed model
  end.
Proof.
  intros Hin.
  assert (text_prompt e = true ->
          two_message_form messages /\ is_allowed model) as Htext.
  { intros He.
    destruct (text_handler_dispatches env e req w (EvCreate model messages) He)
      as (u & Hu); [by eexists _, _; left | exact Hin |].
    apply callAI_upstream in Hu as (-> & -> & Hal).
    split; [apply two_message_form_intro | exact Hal]. }
  destruct e; try (by apply Htext).
  clear Htext. simpl handler in Hin.
  destruct (file req) as [f|] eqn:Hfile.
  - rewrite (imageToText_run env req w f Hfile) in Hin.
    destruct (files w !! file_path f) as [data|]; simpl in Hin;
      [destruct (chat_completions_create env _ _) as [c|er]|];
      unfold trace in Hin; simpl in Hin; in_trace;
      by eexists _, _.
  - unfold imageToText in Hin. rewrite Hfile in Hin.
    unfold trace in Hin; simpl in Hin. in_trace.
Qed.

(** C10. For every endpoint with an optional [model] field, the default
    model is a member of [AVAILABLE_MODELS]; hence a request that omits
    [model] never fails with InvalidModel: every entry into [callAI]
    during the request is with that default, [callAI] does not throw
    the InvalidModel error for it, and no answer of the request carries
    the InvalidModel message. *)
Theorem default_model_allowed (e : Endpoint) (req : Request) (w : World) :
  text_prompt e = true ->
  body req !! "model" = None ->
  default_model e ∈ AVAILABLE_MODELS
  /\ (forall m ms,
        EvCallAI m ms ∈ trace (handler env e req w) ->
        m = JStr (default_model e)
        /\ forall w', result (callAI env m ms w')
                      <> Throw (Error invalid_model_message))
  /\ (forall s, EvJson s (error_payload invalid_model_message)
                ∉ trace (handler env e req w)).
Proof.
  intros He Hm.
  pose proof (field_default_absent req "model" (default_model e) Hm) as Hd.
  split; [apply default_model_in_list|]. split.
  - intros m ms Hin.
    destruct (text_handler_dispatches env e req w (EvCallAI m ms) He)
      as (u & Hu); [by eexists _, _; right | exact Hin |].
    apply callAI_entry in Hu as (-> & ->). rewrite Hd.
    split; [reflexivity|]. intros w' Hr.
    apply callAI_rejected_iff in Hr. apply Hr, default_model_is_allowed.
  - intros s Hin.
    apply (text_handler_error_answer env e req w s _ He) in Hin
      as [(_ & H)|[(_ & H)|[(_ & H)|[(_ & _ & code & er & Hwf & H)
                                     |(_ & _ & u & er & Hr & H)]]]].
    + destruct e; discriminate H.
    + discriminate H.
    + discriminate H.
    + apply write_failure_is_not_invalid_model in Hwf. by symmetry in H.
    + rewrite Hd in Hr.
      apply callAI_allowed_error in Hr; [|apply default_model_is_allowed].
      subst er. discriminate H.
Qed.

(** C5. For every YouTube-summarize request with a non-empty [url]:
    when the transcript fetch yields nothing or an empty list, the
    handler answers 404 (NoTranscript) and neither enters [callAI] nor
    calls the provider; when it yields a non-empty list, [callAI] is
    entered with the system instruction followed by one user message
    whose content is "Transcript: " followed by the texts of all
    segments, in order, joined by single spaces, and [callAI] is never
    entered with anything else. *)
Theorem youtube_transcript (req : Request) (w : World) :
  truthy (field req "url") = true ->
  let url := field req "url" in
  let run := summarizeYoutubeVideo env req w in
  (fetchTranscript env url = Ok None \/ fetchTranscript env url = Ok (Some []) ->
   run = (Ok tt, w,
          [EvFetchTranscript url; EvJson 404 (error_payload no_transcript_message)])
   /\ filter is_upstream_call (trace run) = [])
  /\ (forall seg items,
        fetchTranscript env url = Ok (Some (seg :: items)) ->
        exists rest,
          trace run
          = EvFetchTranscript url
            :: EvCallAI
                 (field_default req "model" "deepseek/deepseek-chat-v3-0324:free")
                 [ {| role := "system";
                      content := JStr summarizeYoutubeVideo_systemPrompt |};
                   {| role := "user";
                      content :=
                        JStr ("Transcript: "
                              ++ join " " (map text (seg :: items))) |} ]
            :: rest
          /\ forall m ms, EvCallAI m ms ∉ rest)
  /\ (forall m ms,
        EvCallAI m ms ∈ trace run ->
        exists seg items,
          fetchTranscript env url = Ok (Some (seg :: items))
          /\ ms = [ system_message summarizeYoutubeVideo_systemPrompt;
                    user_message
                      (JStr ("Transcript: "
                             ++ join " " (map text (seg :: items)))) ]).
Proof.
  intros Hf url run. subst url run.
  rewrite (summarizeYoutubeVideo_run env req w Hf). split; [|split].
  - intros [-> | ->]; split; reflexivity.
  - intros seg items ->. unfold trace at 1; simpl.
    match goal with
    | |- context [callAI env ?m ?ms w] =>
        destruct (callAI_trace_head env m ms w) as (rest & Hhead & Hrest);
        rewrite Hhead;
        destruct (result (callAI env m ms w)) as [v|er]
    end; simpl; eexists; (split; [reflexivity|]);
      intros m ms Hin; apply elem_of_app in Hin as [Hin|Hin];
      try (by apply Hrest in Hin); in_trace.
  - intros m ms Hin.
    destruct (fetchTranscript env (field req "url")) as [[[|seg items]|]|er];
      unfold trace at 1 in Hin; simpl in Hin; try (by in_trace).
    exists seg, items. split; [reflexivity|].
    apply elem_of_cons in Hin as [Hin|Hin]; [discriminate|].
    apply elem_of_app in Hin as [Hin|Hin];
      [by apply callAI_entry in Hin as (_ & ->) | in_trace].
Qed.

(** C4, as the code has it.  For every text-prompt endpoint and every
    request whose required field is present and non-empty and whose
    [model] is a string outside the allow-list, the request ends in a
    server-error answer: the five prompt and topic endpoints enter
    [callAI], which rejects the model, and answer 500 with the
    InvalidModel message; the YouTube endpoint, once it holds a
    non-empty transcript, does the same and answers 500 with its own
    generic message.  No call to the provider is made. *)
Theorem invalid_model_server_error (e : Endpoint) (req : Request) (w : World)
    (m : string) :
  text_prompt e = true ->
  truthy (field req (required_field e)) = true ->
  body req !! "model" = Some (JStr m) ->
  m ∉ AVAILABLE_MODELS ->
  (e <> YoutubeSummarize ->
   handler env e req w
   = (Ok tt, w,
      [EvCallAI (JStr m)
         [system_message (system_prompt e);
          user_message (field req (required_field e))];
       EvJson 500 (error_payload invalid_model_message)]))
  /\ (e = YoutubeSummarize ->
      forall seg items,
        fetchTranscript env (field req "url") = Ok (Some (seg :: items)) ->
        handler env e req w
        = (Ok tt, w,
           [EvFetchTranscript (field req "url");
            EvCallAI (JStr m)
              [system_message (system_prompt e);
               user_message
                 (JStr ("Transcript: " ++ join " " (map text (seg :: items))))];
            EvConsoleError [] (Error invalid_model_message);
            EvJson 500 (error_payload summarize_failure_message)])).
Proof.
  intros He Hf Hm Hnot.
  assert (includes AVAILABLE_MODELS (JStr m) = false) as Hinc.
  { apply includes_not_allowed. intros (s & [= <-] & Hs). by apply Hnot. }
  pose proof (field_default_string req "model" (default_model e) m Hm) as Hd.
  split.
  - intros Hny. destruct (plain e) eqn:Hp.
    + destruct (plain_response_field e Hp) as (key & Hk & _).
      rewrite (plain_handler_run env e req w key Hp Hk Hf). simpl.
      rewrite Hd. by rewrite callAI_rejected.
    + destruct e; try discriminate He; try discriminate Hp; try congruence.
      simpl in Hf, Hd. simpl handler.
      rewrite (generateCode_run env req w Hf). simpl.
      rewrite Hd. by rewrite callAI_rejected.
  - intros -> seg items Htr. simpl in Hf, Hd. simpl handler.
    rewrite (summarizeYoutubeVideo_run env req w Hf), Htr. simpl.
    rewrite Hd. by rewrite callAI_rejected.
Qed.

(** C7. For every generate-code request for which the provider returns
    the text [T], in a storage where the artifact can be written
    ([generated_code] is a directory or not there yet, [index.html] is
    not a directory): the handler writes [T], byte for byte, to the
    artifact file, sends that file to the caller as the attachment
    [index.html] with content [T], and removes it once the transfer has
    ended, whether it succeeded or failed (a failure is only logged).
    After the request the artifact is not in storage, and no other
    file has been touched.  The request is run on its own, to the end
    of its transfer. *)
Theorem generateCode_artifact (req : Request) (w : World) (c : Completion)
    (ch : Choice) (rest : list Choice) (T : string) :
  let model := field_default req "model" "deepseek/deepseek-chat:free" in
  let messages :=
    [system_message generateCode_systemPrompt;
     user_message (field req "prompt")] in
  truthy (field req "prompt") = true ->
  is_allowed model ->
  chat_completions_create env model messages = Ok c ->
  choices c = ch :: rest ->
  message_content ch = JStr T ->
  artifact_path_usable env w ->
  let err := transfer env (generated_file env) T in
  let run := generateCode env req w in
  result run = Ok tt
  /\ trace run
     = ([EvCallAI model messages; EvCreate model messages]
        ++ mkdir_events env w
        ++ [EvWrite (generated_file env) T; EvDownload "index.html" T err]
        ++ download_log err
        ++ [EvUnlink (generated_file env)])%list
  /\ files (world run) !! generated_file env = None
  /\ (forall p, p <> generated_file env ->
                files (world run) !! p = files w !! p).
Proof.
  intros model messages Hf Hal Hc Hch HT Huse err run. subst run.
  rewrite (generateCode_run env req w Hf). cbv zeta. fold model messages.
  apply includes_is_allowed in Hal.
  rewrite (callAI_forwarded env model messages w Hal), Hc, Hch, HT.
  unfold result, world, trace; simpl.
  rewrite (storage_error_usable env w Huse). simpl.
  split; [reflexivity|]. split; [reflexivity|]. split.
  - apply lookup_delete_eq.
  - intros p Hp. rewrite lookup_delete_ne, lookup_insert_ne; done.
Qed.

(** Where the artifact cannot be written, the same request ends in the
    [catch]: [writeFileSync] throws, the answer is 500 with the message
    of that error, and nothing is written or sent. *)
Lemma generateCode_path_not_usable (req : Request) (w : World) (c : Completion)
    (ch : Choice) (rest : list Choice) (T : string) :
  let model := field_default req "model" "deepseek/deepseek-chat:free" in
  let messages :=
    [system_message generateCode_systemPrompt;
     user_message (field req "prompt")] in
  truthy (field req "prompt") = true ->
  is_allowed model ->
  chat_completions_create env model messages = Ok c ->
  choices c = ch :: rest ->
  message_content ch = JStr T ->
  ~ artifact_path_usable env w ->
  exists er,
    storage_error env (generated_file env) (with_generated_dir env w) = Some er
    /\ generateCode env req w
       = (Ok tt, with_generated_dir env w,
          ([EvCallAI model messages; EvCreate model messages]
           ++ mkdir_events env w
           ++ [EvJson 500 (error_payload (exn_message er))])%list).
Proof.
  intros model messages Hf Hal Hc Hch HT Hnot.
  destruct (storage_error_not_usable env w Hnot) as (er & Hse).
  exists er. split; [exact Hse|].
  rewrite (generateCode_run env req w Hf). cbv zeta. fold model messages.
  apply includes_is_allowed in Hal.
  rewrite (callAI_forwarded env model messages w Hal), Hc, Hch, HT.
  unfold result, trace, write_failure; simpl. by rewrite Hse.
Qed.

(** The image endpoint without an upload: MissingInput, nothing else. *)
Lemma imageToText_missing_file (req : Request) (w : World) :
  file req = None ->
  imageToText env req w
  = (Ok tt, w, [EvJson 400 (error_payload "Image file is required.")]).
Proof. intros H. unfold imageToText. by rewrite H. Qed.

(** When the provider answers, the upload is removed. *)
Lemma imageToText_answered_removes_upload (req : Request) (w : World)
    (f : UploadedFile) (data : string) (c : Completion) :
  file req = Some f ->
  files w !! file_path f = Some data ->
  chat_completions_create env (JStr "qwen/qwen3-32b:free")
    [user_message
       (vision_content ("data:" ++ mimetype f ++ ";base64," ++ base64 data))]
  = Ok c ->
  files (world (imageToText env req w)) !! file_path f = None.
Proof.
  intros Hfile Hread Hc.
  rewrite (imageToText_run env req w f Hfile), Hread. simpl. rewrite Hc.
  unfold world; simpl. apply lookup_delete_eq.
Qed.

(** When the provider call fails, the handler answers 500 and the
    upload stays where it was. *)
Lemma imageToText_failed_keeps_upload (req : Request) (w : World)
    (f : UploadedFile) (data : string) (er : exn) :
  file req = Some f ->
  files w !! file_path f = Some data ->
  chat_completions_create env (JStr "qwen/qwen3-32b:free")
    [user_message
       (vision_content ("data:" ++ mimetype f ++ ";base64," ++ base64 data))]
  = Throw er ->
  world (imageToText env req w) = w
  /\ files (world (imageToText env req w)) !! file_path f = Some data
  /\ EvUnlink (file_path f) ∉ trace (imageToText env req w).
Proof.
  intros Hfile Hread Her.
  rewrite (imageToText_run env req w f Hfile), Hread. simpl. rewrite Her.
  unfold world, trace; simpl. split; [reflexivity|]. split; [exact Hread|].
  intros Hin. in_trace; discriminate.
Qed.

End Endpoints.

(** ** The handlers at work on sample requests *)

(** C3. With an upload and a provider call that fails, the handler
    answers 500 and returns without removing the upload: the file is
    still in storage after the request, with its bytes. *)
Theorem imageToText_upload_outlives_failed_call :
  let run := imageToText Sample.env_down Sample.req_image Sample.world_with_upload in
  files Sample.world_with_upload !! file_path Sample.upload = Some "PNG"
  /\ files (world run) !! file_path Sample.upload = Some "PNG"
  /\ trace run
     = [EvRead ["uploads"; "1700000000000.png"];
        EvCreate (JStr "qwen/qwen3-32b:free")
          [user_message (vision_content "data:image/png;base64,UE5H")];
        EvConsoleError [Lit "Image processing error:"] Sample.provider_error;
        EvJson 500 (error_payload "Failed to process image.")].
Proof. vm_compute. repeat split. Qed.

(** The same request when the provider answers: the upload is gone. *)
Example imageToText_upload_removed_after_answer :
  let run := imageToText Sample.env_up Sample.req_image Sample.world_with_upload in
  files (world run) !! file_path Sample.upload = None
  /\ trace run
     = [EvRead ["uploads"; "1700000000000.png"];
        EvCreate (JStr "qwen/qwen3-32b:free")
          [user_message (vision_content "data:image/png;base64,UE5H")];
        EvUnlink ["uploads"; "1700000000000.png"];
        EvJson 200 (JObj [("description", JStr Sample.html)])].
Proof. vm_compute. repeat split. Qed.

(** A video without transcript: 404, and the provider is not asked. *)
Example summarizeYoutubeVideo_no_transcript :
  summarizeYoutubeVideo Sample.env_silent
    (Sample.req_url "https://youtu.be/dQw4w9WgXcQ") Sample.empty_world
  = (Ok tt, Sample.empty_world,
     [EvFetchTranscript (JStr "https://youtu.be/dQw4w9WgXcQ");
      EvJson 404 (error_payload no_transcript_message)]).
Proof. vm_compute. reflexivity. Qed.

(** A generate-code request where [generated_code] is a regular file:
    the directory check passes, [writeFileSync] throws ENOTDIR, and the
    answer is 500 with that message; nothing is sent. *)
Example generateCode_blocked_directory :
  generateCode Sample.env_up (Sample.req_prompt "a landing page")
    Sample.world_blocked
  = (Ok tt, Sample.world_blocked,
     [EvCallAI (JStr "deepseek/deepseek-chat:free")
        [system_message generateCode_systemPrompt;
         user_message (JStr "a landing page")];
      EvCreate (JStr "deepseek/deepseek-chat:free")
        [system_message generateCode_systemPrompt;
         user_message (JStr "a landing page")];
      EvJson 500
        (error_payload
           (exn_message
              (ENOTDIR Sample.env_up "open" (generated_file Sample.env_up))))]).
Proof. vm_compute. reflexivity. Qed.

(** C4, as stated, fails: a generate-code request with a prompt and with
    the model "openai/gpt-4o", a string outside the allow-list, is
    answered with status 500, not 400. *)
Lemma invalid_model_answered_500 :
  let req := Sample.req_prompt_model "a landing page" "openai/gpt-4o" in
  let run := handler Sample.env_up GenerateCode req Sample.empty_world in
  body req !! "model" = Some (JStr "openai/gpt-4o")
  /\ ("openai/gpt-4o" ∉ AVAILABLE_MODELS)
  /\ trace run
     = [EvCallAI (JStr "openai/gpt-4o")
          [system_message generateCode_systemPrompt;
           user_message (JStr "a landing page")];
        EvJson 500 (error_payload invalid_model_message)]
  /\ ~ (forall s payload, EvJson s payload ∈ trace run -> s = 400).
Proof.
  assert (trace (handler Sample.env_up GenerateCode
                   (Sample.req_prompt_model "a landing page" "openai/gpt-4o")
                   Sample.empty_world)
          = [EvCallAI (JStr "openai/gpt-4o")
               [system_message generateCode_systemPrompt;
                user_message (JStr "a landing page")];
             EvJson 500 (error_payload invalid_model_message)]) as Htrace
    by (vm_compute; reflexivity).
  cbv zeta. split; [vm_compute; reflexivity|]. split.
  { intros Hin. apply list_elem_of_In in Hin. simpl in Hin.
    repeat (destruct Hin as [Hin|Hin]; [discriminate Hin|]). exact Hin. }
  split; [exact Htrace|].
  intros H. rewrite Htrace in H.
  specialize (H 500 (error_payload invalid_model_message)).
  assert (500 = 400) as Habs by (apply H; set_solver).
  discriminate Habs.
Qed.

(** ** The theorems above, applied *)

Lemma sample_storage_usable :
  artifact_path_usable Sample.env_up Sample.empty_world.
Proof. split; [apply not_elem_of_empty | right; reflexivity]. Qed.

Lemma sample_model_not_allowed : ~ is_allowed (JStr "openai/gpt-4o").
Proof. by apply includes_not_allowed. Qed.

Lemma sample_model_allowed : is_allowed (JStr "qwen/qwen3-32b:free").
Proof. by apply includes_is_allowed. Qed.

Lemma callAI_invalid_model_witness :
  ~ is_allowed (JStr "openai/gpt-4o")
  /\ callAI Sample.env_up (JStr "openai/gpt-4o") Sample.messages Sample.empty_world
     = (Throw (Error invalid_model_message), Sample.empty_world,
        [EvCallAI (JStr "openai/gpt-4o") Sample.messages]).
Proof.
  split; [exact sample_model_not_allowed|].
  exact (proj1 (callAI_invalid_model Sample.env_up (JStr "openai/gpt-4o")
                  Sample.messages Sample.empty_world sample_model_not_allowed)).
Defined.

Lemma callAI_first_choice_witness :
  is_allowed (JStr "qwen/qwen3-32b:free")
  /\ callAI Sample.env_up (JStr "qwen/qwen3-32b:free") Sample.messages
       Sample.empty_world
     = (Ok (JStr "<!DOCTYPE html><html></html>"), Sample.empty_world,
        [EvCallAI (JStr "qwen/qwen3-32b:free") Sample.messages;
         EvCreate (JStr "qwen/qwen3-32b:free") Sample.messages]).
Proof.
  split; [exact sample_model_allowed|].
  apply (callAI_first_choice Sample.env_up (JStr "qwen/qwen3-32b:free")
           Sample.messages Sample.empty_world (Sample.completion_of Sample.html)
           {| message_content := JStr Sample.html |} []).
  - exact sample_model_allowed.
  - reflexivity.
  - reflexivity.
Defined.

Lemma callAI_upstream_failure_witness :
  is_allowed (JStr "qwen/qwen3-32b:free")
  /\ callAI Sample.env_down (JStr "qwen/qwen3-32b:free") Sample.messages
       Sample.empty_world
     = (Throw (Error "Failed to get response from AI model."), Sample.empty_world,
        [EvCallAI (JStr "qwen/qwen3-32b:free") Sample.messages;
         EvCreate (JStr "qwen/qwen3-32b:free") Sample.messages;
         EvConsoleError
           [Lit "Error calling AI model "; Hole (JStr "qwen/qwen3-32b:free"); Lit ":"]
           Sample.provider_error]).
Proof.
  split; [exact sample_model_allowed|].
  apply (callAI_upstream_failure Sample.env_down (JStr "qwen/qwen3-32b:free")
           Sample.messages Sample.empty_world Sample.provider_error).
  - exact sample_model_allowed.
  - reflexivity.
Defined.

Lemma missing_input_witness :
  body Sample.req_empty !! required_field Explainer = None
  /\ handler Sample.env_up Explainer Sample.req_empty Sample.empty_world
     = (Ok tt, Sample.empty_world,
        [EvJson 400 (error_payload "Topic is required.")]).
Proof.
  split; [reflexivity|].
  apply (missing_input Sample.env_up Explainer Sample.req_empty Sample.empty_world).
  - reflexivity.
  - left. reflexivity.
Defined.

Lemma outbound_call_shape_witness :
  EvCreate (JStr "microsoft/phi-4-reasoning-plus:free")
    [system_message getMathReasoning_systemPrompt; user_message (JStr "2+2?")]
  ∈ trace (handler Sample.env_up MathReasoning (Sample.req_prompt "2+2?")
             Sample.empty_world)
  /\ two_message_form
       [system_message getMathReasoning_systemPrompt; user_message (JStr "2+2?")].
Proof.
  assert (EvCreate (JStr "microsoft/phi-4-reasoning-plus:free")
            [system_message getMathReasoning_systemPrompt; user_message (JStr "2+2?")]
          ∈ trace (handler Sample.env_up MathReasoning (Sample.req_prompt "2+2?")
                     Sample.empty_world)) as Hin.
  { apply list_elem_of_In. vm_compute. right. left. reflexivity. }
  split; [exact Hin|].
  exact (proj1 (outbound_call_shape Sample.env_up MathReasoning
                  (Sample.req_prompt "2+2?") Sample.empty_world _ _ Hin)).
Defined.

Lemma default_model_allowed_witness :
  body (Sample.req_prompt "hello") !! "model" = None
  /\ ("qwen/qwen3-32b:free" ∈ AVAILABLE_MODELS)
  /\ forall s,
       EvJson s (error_payload invalid_model_message)
       ∉ trace (handler Sample.env_up Chat (Sample.req_prompt "hello")
                  Sample.empty_world).
Proof.
  assert (body (Sample.req_prompt "hello") !! "model" = None) as Hm
    by (vm_compute; reflexivity).
  split; [exact Hm|].
  pose proof (default_model_allowed Sample.env_up Chat (Sample.req_prompt "hello")
                Sample.empty_world eq_refl Hm) as (H1 & _ & H3).
  split; [exact H1 | exact H3].
Defined.

Lemma youtube_transcript_witness :
  truthy (field (Sample.req_url "https://youtu.be/dQw4w9WgXcQ") "url") = true
  /\ exists rest,
       trace (summarizeYoutubeVideo Sample.env_up
                (Sample.req_url "https://youtu.be/dQw4w9WgXcQ") Sample.empty_world)
       = EvFetchTranscript (JStr "https://youtu.be/dQw4w9WgXcQ")
         :: EvCallAI (JStr "deepseek/deepseek-chat-v3-0324:free")
              [ {| role := "system"; content := JStr summarizeYoutubeVideo_systemPrompt |};
                {| role := "user"; content := JStr "Transcript: Hello world" |} ]
         :: rest.
Proof.
  assert (truthy (field (Sample.req_url "https://youtu.be/dQw4w9WgXcQ") "url") = true)
    as Hf by (vm_compute; reflexivity).
  split; [exact Hf|].
  destruct (proj1 (proj2 (youtube_transcript Sample.env_up
                     (Sample.req_url "https://youtu.be/dQw4w9WgXcQ")
                     Sample.empty_world Hf))
              {| text := "Hello"; duration := 1%float; offset := 0%float |}
              [ {| text := "world"; duration := 2%float; offset := 1%float |} ]
              eq_refl) as (rest & Hrest & _).
  exists rest. exact Hrest.
Defined.

Lemma invalid_model_server_error_witness :
  truthy (field (Sample.req_prompt_model "2+2?" "openai/gpt-4o") "prompt") = true
  /\ body (Sample.req_prompt_model "2+2?" "openai/gpt-4o") !! "model"
     = Some (JStr "openai/gpt-4o")
  /\ ("openai/gpt-4o" ∉ AVAILABLE_MODELS)
  /\ handler Sample.env_up MathReasoning
       (Sample.req_prompt_model "2+2?" "openai/gpt-4o") Sample.empty_world
     = (Ok tt, Sample.empty_world,
        [EvCallAI (JStr "openai/gpt-4o")
           [system_message getMathReasoning_systemPrompt; user_message (JStr "2+2?")];
         EvJson 500 (error_payload invalid_model_message)]).
Proof.
  assert (truthy (field (Sample.req_prompt_model "2+2?" "openai/gpt-4o") "prompt") = true)
    as Hf by (vm_compute; reflexivity).
  assert (body (Sample.req_prompt_model "2+2?" "openai/gpt-4o") !! "model"
          = Some (JStr "openai/gpt-4o")) as Hm by (vm_compute; reflexivity).
  assert ("openai/gpt-4o" ∉ AVAILABLE_MODELS) as Hnot.
  { intros Hin. apply list_elem_of_In in Hin. simpl in Hin.
    repeat (destruct Hin as [Hin|Hin]; [discriminate Hin|]). exact Hin. }
  split; [exact Hf|]. split; [exact Hm|]. split; [exact Hnot|].
  pose proof (proj1 (invalid_model_server_error Sample.env_up MathReasoning
                       (Sample.req_prompt_model "2+2?" "openai/gpt-4o")
                       Sample.empty_world "openai/gpt-4o" eq_refl Hf Hm Hnot)) as H.
  rewrite H by discriminate.
  rewrite (field_present _ "prompt" (JStr "2+2?")) by (vm_compute; reflexivity).
  reflexivity.
Defined.

Lemma generateCode_artifact_witness :
  truthy (field (Sample.req_prompt "a landing page") "prompt") = true
  /\ artifact_path_usable Sample.env_up Sample.empty_world
  /\ trace (generateCode Sample.env_up (Sample.req_prompt "a landing page")
             Sample.empty_world)
     = [EvCallAI (JStr "deepseek/deepseek-chat:free")
          [system_message generateCode_systemPrompt; user_message (JStr "a landing page")];
        EvCreate (JStr "deepseek/deepseek-chat:free")
          [system_message generateCode_systemPrompt; user_message (JStr "a landing page")];
        EvMkdir ["srv"; "controllers"; ".."; "generated_code"];
        EvWrite ["srv"; "controllers"; ".."; "generated_code"; "index.html"]
          "<!DOCTYPE html><html></html>";
        EvDownload "index.html" "<!DOCTYPE html><html></html>" None;
        EvUnlink ["srv"; "controllers"; ".."; "generated_code"; "index.html"]]
  /\ files (world (generateCode Sample.env_up (Sample.req_prompt "a landing page")
                    Sample.empty_world))
     !! ["srv"; "controllers"; ".."; "generated_code"; "index.html"] = None.
Proof.
  assert (truthy (field (Sample.req_prompt "a landing page") "prompt") = true)
    as Hf by (vm_compute; reflexivity).
  assert (is_allowed (field_default (Sample.req_prompt "a landing page") "model"
                        "deepseek/deepseek-chat:free")) as Hal
    by (by apply includes_is_allowed; vm_compute).
  split; [exact Hf|]. split; [exact sample_storage_usable|].
  pose proof (generateCode_artifact Sample.env_up (Sample.req_prompt "a landing page")
                Sample.empty_world (Sample.completion_of Sample.html)
                {| message_content := JStr Sample.html |} [] Sample.html
                Hf Hal eq_refl eq_refl eq_refl sample_storage_usable)
    as (_ & Ht & Hgone & _).
  split; [|exact Hgone].
  rewrite Ht. vm_compute. reflexivity.
Defined.

(** * Further properties of the controller *)

(** ** The dispatch helper, completed *)

Section DispatchCases.

Variable env : Env.

(** The four ways a call of [callAI] can go. *)
Lemma callAI_cases (model : value) (messages : list Message) (w : World) :
  (~ is_allowed model
   /\ callAI env model messages w
      = (Throw (Error invalid_model_message), w, [EvCallAI model messages]))
  \/ (is_allowed model
      /\ exists c ch rest,
           chat_completions_create env model messages = Ok c
           /\ choices c = ch :: rest
           /\ callAI env model messages w
              = (Ok (message_content ch), w,
                 [EvCallAI model messages; EvCreate model messages]))
  \/ (is_allowed model
      /\ exists er,
           callAI env model messages w
           = (Throw (Error upstream_failure_message), w,
              [EvCallAI model messages; EvCreate model messages;
               EvConsoleError [Lit "Error calling AI model "; Hole model; Lit ":"] er])).
Proof.
  destruct (includes AVAILABLE_MODELS model) eqn:H.
  - right. pose proof (proj1 (includes_is_allowed model) H) as Hal.
    rewrite (callAI_forwarded env model messages w H).
    destruct (chat_completions_create env model messages) as [c|er].
    + destruct (choices c) as [|ch rest] eqn:Hch.
      * right. split; [exact Hal|]. by eexists.
      * left. split; [exact Hal|]. by exists c, ch, rest.
    + right. split; [exact Hal|]. by eexists.
  - left. split; [by apply includes_not_allowed|].
    by apply callAI_rejected.
Qed.

(** X1. For every model and message list, [callAI] calls the provider
    exactly when the model is in the allow-list, and then exactly once,
    with the model and the messages it was given. *)
Theorem callAI_calls_provider_iff_allowed (model : value)
    (messages : list Message) (w : World) :
  (is_allowed model ->
   filter is_upstream_call (trace (callAI env model messages w))
   = [EvCreate model messages])
  /\ (~ is_allowed model ->
      filter is_upstream_call (trace (callAI env model messages w)) = [])
  /\ (is_allowed model
      <-> exists m ms, EvCreate m ms ∈ trace (callAI env model messages w)).
Proof.
  destruct (callAI_cases model messages w)
    as [(Hn & Hrun)|[(Hal & c & ch & rest & _ & _ & Hrun)|(Hal & er & Hrun)]];
    rewrite Hrun; unfold trace; simpl.
  - split; [tauto|]. split; [reflexivity|]. split; [tauto|].
    intros (m & ms & Hin). in_trace.
  - split; [reflexivity|]. split; [tauto|]. split; [|tauto].
    intros _. exists model, messages. set_solver.
  - split; [reflexivity|]. split; [tauto|]. split; [|tauto].
    intros _. exists model, messages. set_solver.
Qed.

(** X2. Whatever the provider does, the only errors [callAI] throws are
    the InvalidModel error and the generic upstream failure: an error of
    the provider never leaves [callAI], it only reaches the console. *)
Theorem callAI_throws_two_errors (model : value) (messages : list Message)
    (w : World) (er : exn) :
  result (callAI env model messages w) = Throw er ->
  (er = Error invalid_model_message /\ ~ is_allowed model)
  \/ (er = Error upstream_failure_message /\ is_allowed model).
Proof.
  destruct (callAI_cases model messages w)
    as [(Hn & Hrun)|[(Hal & c & ch & rest & _ & _ & Hrun)|(Hal & e' & Hrun)]];
    rewrite Hrun; unfold result; simpl; intros [= <-]; tauto.
Qed.

Lemma callAI_throws_cases (model : value) (messages : list Message)
    (w : World) (er : exn) :
  result (callAI env model messages w) = Throw er ->
  er = Error invalid_model_message \/ er = Error upstream_failure_message.
Proof.
  destruct (callAI_cases model messages w)
    as [(Hn & Hrun)|[(Hal & c & ch & rest & _ & _ & Hrun)|(Hal & e' & Hrun)]];
    rewrite Hrun; unfold result; simpl; intros [= <-]; tauto.
Qed.

(** X3. When the provider answers with a completion that has no choice,
    [callAI] fails with the generic upstream failure; the TypeError of
    reading [choices[0].message] goes to the console. *)
Theorem callAI_no_choice (model : value) (messages : list Message) (w : World)
    (c : Completion) :
  is_allowed model ->
  chat_completions_create env model messages = Ok c ->
  choices c = [] ->
  callAI env model messages w
  = (Throw (Error upstream_failure_message), w,
     [EvCallAI model messages; EvCreate model messages;
      EvConsoleError [Lit "Error calling AI model "; Hole model; Lit ":"]
        (TypeError "Cannot read properties of undefined (reading 'message')")]).
Proof.
  intros Hal Hc Hch. apply includes_is_allowed in Hal.
  rewrite (callAI_forwarded env model messages w Hal). by rewrite Hc, Hch.
Qed.

End DispatchCases.

(** ** Every path through a handler *)

(** Splits a goal about a run of [callAI] into its outcomes. *)
Ltac callAI_split env :=
  match goal with
  | |- context [callAI env ?m ?ms ?w] =>
      let Hrun := fresh "Hrun" in
      destruct (callAI_cases env m ms w)
        as [(? & Hrun)|[(? & ? & ? & ? & ? & ? & Hrun)|(? & ? & Hrun)]];
      rewrite !Hrun
  end.

(** Splits a goal about [handler env e req w] into the paths of the
    handler, each with its run written out. *)
Ltac text_paths env e req w :=
  let Hf := fresh "Hf" in
  destruct (truthy (field req (required_field e))) eqn:Hf;
  [ first
      [ rewrite (plain_handler_run env e req w _ eq_refl eq_refl Hf)
      | change (handler env e req w) with (generateCode env req w);
        rewrite (generateCode_run env req w Hf)
      | change (handler env e req w) with (summarizeYoutubeVideo env req w);
        rewrite (summarizeYoutubeVideo_run env req w Hf);
        destruct (fetchTranscript env (field req "url")) as [[[|? ?]|]|?] ];
    cbv zeta; try callAI_split env
  | rewrite (missing_field_run env e req w eq_refl Hf) ].

Ltac image_paths env req w :=
  change (handler env ImageToText req w) with (imageToText env req w);
  let Hfile := fresh "Hfile" in
  destruct (file req) as [?f|] eqn:Hfile;
  [ rewrite (imageToText_run env req w _ Hfile);
    destruct (files w !! file_path _) as [?data|] eqn:?; cbv zeta;
    [ destruct (chat_completions_create env _ _) as [?c|?er] eqn:?;
      [ destruct (choices _) as [|?ch ?rest] eqn:? | ] | ]
  | rewrite (imageToText_missing_file env req w Hfile) ].

Ltac handler_paths env e req w :=
  destruct e;
  [ text_paths env GenerateCode req w
  | text_paths env MathReasoning req w
  | text_paths env CodingTask req w
  | text_paths env YoutubeSummarize req w
  | text_paths env Chat req w
  | image_paths env req w
  | text_paths env Explainer req w ];
  unfold result, world, trace; simpl.

Section Paths.

Variable env : Env.

(** X4. No handler ever throws: for every endpoint, request, collaborator
    behaviour and file system, the handler returns normally, callbacks
    included. *)
Theorem handler_never_throws (e : Endpoint) (req : Request) (w : World) :
  result (handler env e req w) = Ok tt.
Proof.
  handler_paths env e req w; try reflexivity.
  all: repeat case_match; reflexivity.
Qed.

(** X5. Every request is answered exactly once: the trace of a handler
    holds exactly one answer (a JSON body or a download), whatever the
    collaborators do. *)
Theorem handler_answers_once (e : Endpoint) (req : Request) (w : World) :
  length (filter is_response (trace (handler env e req w))) = 1.
Proof.
  handler_paths env e req w; try reflexivity.
  all: unfold mkdir_events, download_log; repeat case_match; reflexivity.
Qed.

(** X6. No retry and no fan-out: a handler calls the provider at most
    once per request, fetches a transcript at most once, and only the
    YouTube handler fetches transcripts at all. *)
Theorem handler_calls_at_most_once (e : Endpoint) (req : Request) (w : World) :
  length (filter is_upstream_call (trace (handler env e req w))) <= 1
  /\ length (filter is_transcript_call (trace (handler env e req w)))
     <= (match e with YoutubeSummarize => 1 | _ => 0 end).
Proof.
  handler_paths env e req w.
  all: unfold mkdir_events, download_log; repeat case_match; simpl; lia.
Qed.

(** X7. A request touches no file but the shared artifact and its own
    upload, and removes no directory: every other path holds after the
    request what it held before. *)
Theorem handler_frame (e : Endpoint) (req : Request) (w : World) (p : path) :
  p <> generated_file env ->
  (forall f, file req = Some f -> p <> file_path f) ->
  files (world (handler env e req w)) !! p = files w !! p
  /\ dirs w ⊆ dirs (world (handler env e req w)).
Proof.
  intros Hgen Hup.
  handler_paths env e req w; try (split; [reflexivity|set_solver]).
  - repeat case_match; simpl; unfold with_generated_dir;
      repeat case_match; simpl;
      rewrite ?lookup_delete_ne, ?lookup_insert_ne by done;
      (split; [reflexivity|set_solver]).
  - split; [|set_solver]. apply lookup_delete_ne. intros <-. by eapply Hup.
  - split; [|set_solver]. apply lookup_delete_ne. intros <-. by eapply Hup.
Qed.

(** X8. The JSON endpoints leave the file system alone: the four plain
    endpoints and the YouTube endpoint end in the world they started in
    and perform no storage action. *)
Theorem json_endpoints_leave_storage (e : Endpoint) (req : Request) (w : World) :
  plain e = true \/ e = YoutubeSummarize ->
  world (handler env e req w) = w
  /\ filter is_storage_event (trace (handler env e req w)) = [].
Proof.
  intros He.
  handler_paths env e req w; try (by destruct He); try (split; reflexivity).
  all: repeat case_match; split; reflexivity.
Qed.

(** X9. Status 400 is the answer exactly when the required input is
    missing: a falsy required field for the text-prompt endpoints
    (absent, [null], [false], [0], [NaN] or the empty string), no uploaded
    file for image-to-text.  No other failure is answered with 400. *)
Theorem bad_request_iff_input_missing (e : Endpoint) (req : Request) (w : World) :
  (exists payload, EvJson 400 payload ∈ trace (handler env e req w))
  <-> input_missing e req = true.
Proof.
  unfold input_missing.
  handler_paths env e req w;
    repeat match goal with H : _ = _ |- _ => rewrite ?H; clear H end; simpl.
  all: unfold mkdir_events, download_log.
  all: split; [intros (payload & Hin)|intros Hm];
    try discriminate Hm; try reflexivity;
    try (eexists; constructor).
  all: repeat case_match; simpl in Hin; in_trace.
  all: congruence.
Qed.

(** X10. Status 404 is answered only by the YouTube endpoint, and
    exactly when its [url] is truthy and the transcript service resolved
    to nothing or to an empty list. *)
Theorem not_found_iff_no_transcript (e : Endpoint) (req : Request) (w : World) :
  (exists payload, EvJson 404 payload ∈ trace (handler env e req w))
  <-> e = YoutubeSummarize
      /\ truthy (field req "url") = true
      /\ (fetchTranscript env (field req "url") = Ok None
          \/ fetchTranscript env (field req "url") = Ok (Some [])).
Proof.
  assert (e = YoutubeSummarize \/ e <> YoutubeSummarize) as [->|Hne]
    by (destruct e; first [by left | by right]).
  - simpl handler.
    destruct (truthy (field req "url")) eqn:Hf.
    + rewrite (summarizeYoutubeVideo_run env req w Hf).
      destruct (fetchTranscript env (field req "url")) as [[[|seg items]|]|er];
        cbv zeta; try callAI_split env; unfold trace, result; simpl.
      all: split;
        [intros (payload & Hin)| intros (_ & _ & [Hx|Hx]); try discriminate Hx].
      all: try (exists (error_payload no_transcript_message); set_solver).
      all: try (split; [reflexivity|]; split; [reflexivity|]; tauto).
      all: in_trace; congruence.
    + pose proof (missing_field_run env YoutubeSummarize req w eq_refl Hf) as Hrun.
      simpl handler in Hrun. rewrite Hrun.
      unfold trace; simpl. split.
      * intros (payload & Hin). in_trace.
      * intros (_ & Habs & _). discriminate Habs.
  - split; [|tauto]. intros (payload & Hin). exfalso. revert Hin.
    handler_paths env e req w; try congruence; intros Hin.
    all: unfold mkdir_events, download_log in Hin; repeat case_match;
      simpl in Hin; in_trace.
    all: congruence.
Qed.

(** X11. A plain endpoint (math-reasoning, coding-task, chat, explainer)
    whose required field is truthy and whose model is allowed answers
    with status 200 and the content of the provider's first choice,
    as it came, under the endpoint's own property; the caller's model and
    the raw value of the required field are what the provider receives. *)
Theorem plain_endpoint_answers (e : Endpoint) (req : Request) (w : World)
    (key : string) (c : Completion) (ch : Choice) (rest : list Choice) :
  let model := field_default req "model" (default_model e) in
  let messages :=
    [system_message (system_prompt e);
     user_message (field req (required_field e))] in
  plain e = true ->
  response_field e = Some key ->
  truthy (field req (required_field e)) = true ->
  is_allowed model ->
  chat_completions_create env model messages = Ok c ->
  choices c = ch :: rest ->
  handler env e req w
  = (Ok tt, w,
     [EvCallAI model messages; EvCreate model messages;
      EvJson 200 (JObj [(key, message_content ch)])]).
Proof.
  intros model messages Hp Hk Hf Hal Hc Hch.
  rewrite (plain_handler_run env e req w key Hp Hk Hf). cbv zeta.
  fold model messages. apply includes_is_allowed in Hal.
  rewrite (callAI_forwarded env model messages w Hal), Hc, Hch. reflexivity.
Qed.

(** X12. When the provider rejects every call, a request that reaches
    the provider is answered once, with status 500 and the endpoint's
    fixed message: the generic upstream failure for the prompt and topic
    endpoints, the summarize failure for YouTube, the image failure for
    image-to-text. *)
Theorem provider_down_answer (e : Endpoint) (req : Request) (w : World) :
  (forall m ms, exists er, chat_completions_create env m ms = Throw er) ->
  (exists m ms, EvCreate m ms ∈ trace (handler env e req w)) ->
  filter is_response (trace (handler env e req w))
  = [EvJson 500 (error_payload (upstream_answer e))].
Proof.
  intros Hdown. handler_paths env e req w; intros (m & ms & Hin).
  all: try (by in_trace).
  all: try match goal with
         | H : chat_completions_create env ?a ?b = Ok _ |- _ =>
             destruct (Hdown a b) as (er' & Her'); congruence
         end.
  all: reflexivity.
Qed.

(** X13. Where the error message of an answer comes from.  For every
    endpoint but code generation it is one of the endpoint's own fixed
    messages: nothing of a provider error, of a transcript error or of
    the request reaches the caller in an error body.  The
    code-generation endpoint has one more source: when [writeFileSync]
    refuses the artifact, its [catch] echoes the message of that error,
    the platform's own text, with the path of the artifact or a
    description of the value the provider sent. *)
Theorem error_message_origin (e : Endpoint) (req : Request) (w : World)
    (s : nat) (msg : string) :
  EvJson s (error_payload msg) ∈ trace (handler env e req w) ->
  msg ∈ error_messages e
  \/ (e = GenerateCode /\ s = 500
      /\ exists code er,
           result (callAI env (field_default req "model" "deepseek/deepseek-chat:free")
                     [system_message generateCode_systemPrompt;
                      user_message (field req "prompt")] w) = Ok code
           /\ write_failure env code w = Some er
           /\ msg = exn_message er).
Proof.
  assert (e = GenerateCode \/ e <> GenerateCode) as [->|Hne]
    by (destruct e; first [by left | by right]).
  - simpl handler. intros Hin.
    destruct (truthy (field req "prompt")) eqn:Hf.
    + rewrite (generateCode_run env req w Hf) in Hin. cbv zeta in Hin.
      match type of Hin with
      | context [result ?c] => destruct (result c) as [code|er] eqn:Hr
      end; [destruct (write_failure env code w) as [er|] eqn:Hwf|];
        unfold trace at 1 in Hin; simpl in Hin;
        unfold mkdir_events, download_log in Hin;
        (apply elem_of_app in Hin as [Hin|Hin];
         [by apply callAI_no_response in Hin|]);
        in_trace; injection Hin as -> ->.
      * right. split; [reflexivity|]. split; [reflexivity|]. by exists code, er.
      * left. apply callAI_throws_cases in Hr as [->| ->]; simpl; set_solver.
    + pose proof (missing_field_run env GenerateCode req w eq_refl Hf) as Hrun.
      simpl handler in Hrun. rewrite Hrun in Hin. unfold trace in Hin; simpl in Hin.
      in_trace. injection Hin as _ ->. left. simpl. set_solver.
  - intros Hin. left. revert Hin.
    handler_paths env e req w; try congruence; intros Hin.
    all: repeat case_match; simpl in Hin; in_trace.
    all: first [ congruence
               | injection Hin as _ ->; simpl; set_solver ].
Qed.

Lemma field_default_present (req : Request) (f d : string) (v : value) :
  body req !! f = Some v -> v <> JUndefined -> field_default req f d = v.
Proof.
  intros H Hv. unfold field_default. rewrite (field_present _ _ _ H).
  by destruct v.
Qed.

(** X14. The default model stands in only for an absent [model]: a
    [model] that is present but is not an allowed string ([null], a
    number, an unknown id) is passed on as it is and rejected, and the
    prompt and topic endpoints answer 500 with the InvalidModel message
    without calling the provider. *)
Theorem present_model_is_not_defaulted (e : Endpoint) (req : Request) (w : World)
    (v : value) :
  text_prompt e = true ->
  e <> YoutubeSummarize ->
  truthy (field req (required_field e)) = true ->
  body req !! "model" = Some v ->
  v <> JUndefined ->
  ~ is_allowed v ->
  handler env e req w
  = (Ok tt, w,
     [EvCallAI v
        [system_message (system_prompt e);
         user_message (field req (required_field e))];
      EvJson 500 (error_payload invalid_model_message)]).
Proof.
  intros He Hny Hf Hm Hv Hnot.
  pose proof (field_default_present req "model" (default_model e) v Hm Hv) as Hd.
  apply includes_not_allowed in Hnot.
  destruct (plain e) eqn:Hp.
  - destruct (plain_response_field e Hp) as (key & Hk & _).
    rewrite (plain_handler_run env e req w key Hp Hk Hf). cbv zeta.
    rewrite Hd. by rewrite callAI_rejected.
  - destruct e; try discriminate He; try discriminate Hp; try congruence.
    simpl in Hf, Hd. simpl handler.
    rewrite (generateCode_run env req w Hf). cbv zeta.
    rewrite Hd. by rewrite callAI_rejected.
Qed.

(** X15. When the provider's first choice has a content that is not
    text ([null], for one), the code-generation endpoint cannot write
    it: it answers 500, after making sure of the directory, and neither
    writes the artifact nor sends a download nor removes anything. *)
Theorem generateCode_content_not_text (req : Request) (w : World)
    (c : Completion) (ch : Choice) (rest : list Choice) :
  let model := field_default req "model" "deepseek/deepseek-chat:free" in
  let messages :=
    [system_message generateCode_systemPrompt;
     user_message (field req "prompt")] in
  truthy (field req "prompt") = true ->
  is_allowed model ->
  chat_completions_create env model messages = Ok c ->
  choices c = ch :: rest ->
  (forall T, message_content ch <> JStr T) ->
  exists msg,
    generateCode env req w
    = (Ok tt, with_generated_dir env w,
       ([EvCallAI model messages; EvCreate model messages]
        ++ mkdir_events env w ++ [EvJson 500 (error_payload msg)])%list)
    /\ files (with_generated_dir env w) = files w.
Proof.
  intros model messages Hf Hal Hc Hch Hnt.
  exists (data_type_error_message env (message_content ch)). split.
  - rewrite (generateCode_run env req w Hf). cbv zeta. fold model messages.
    apply includes_is_allowed in Hal.
    rewrite (callAI_forwarded env model messages w Hal), Hc, Hch.
    unfold result, trace, write_failure; simpl.
    destruct (message_content ch) eqn:Hcontent; try reflexivity.
    by destruct (Hnt s).
  - apply with_generated_dir_files.
Qed.

(** X16. The directory of the artifact is made at most once: a run of
    the code-generation endpoint in a world where it exists makes no
    directory, and after any run in which [callAI] returned it exists,
    so that no later run makes it again. *)
Theorem generated_dir_made_once (req : Request) (w : World) (code : value) :
  let run := generateCode env req w in
  (exists_in w (generated_dir env) = true ->
   forall p, EvMkdir p ∉ trace run)
  /\ (truthy (field req "prompt") = true ->
      result (callAI env (field_default req "model" "deepseek/deepseek-chat:free")
                [system_message generateCode_systemPrompt;
                 user_message (field req "prompt")] w) = Ok code ->
      exists_in (world run) (generated_dir env) = true
      /\ forall req' p, EvMkdir p ∉ trace (generateCode env req' (world run))).
Proof.
  assert (forall rq w0, exists_in w0 (generated_dir env) = true ->
          forall p, EvMkdir p ∉ trace (generateCode env rq w0)) as Hnone.
  { intros rq w0 Hex p.
    destruct (truthy (field rq "prompt")) eqn:Hf.
    - rewrite (generateCode_run env rq w0 Hf). cbv zeta.
      callAI_split env; unfold result, trace; simpl;
        unfold mkdir_events; rewrite ?Hex;
        unfold download_log; repeat case_match; simpl; intros Hin; in_trace;
        discriminate.
    - pose proof (missing_field_run env GenerateCode rq w0 eq_refl Hf) as Hrun.
      simpl handler in Hrun. rewrite Hrun. unfold trace; simpl.
      intros Hin. in_trace; discriminate. }
  cbv zeta. split; [apply Hnone|].
  intros Hf Hcall.
  assert (exists_in (world (generateCode env req w)) (generated_dir env) = true)
    as Hex.
  { rewrite (generateCode_run env req w Hf). cbv zeta. rewrite Hcall.
    pose proof (with_generated_dir_exists env w) as Hw.
    destruct (write_failure env code w); unfold world; simpl; [exact Hw|].
    pose proof (with_generated_dir_files env w) as Hfiles.
    unfold exists_in in Hw |- *; simpl. rewrite Hfiles in Hw.
    rewrite lookup_delete_ne, lookup_insert_ne
      by (apply generated_file_is_not_dir). exact Hw. }
  split; [exact Hex|]. intros req' p. by apply Hnone.
Qed.

(** X17. The artifact is one shared file: a code-generation request
    that sends a download ends with nothing at the artifact path,
    whatever was there before, and a request that sends none leaves all
    files as they were. *)
Theorem generateCode_shared_artifact (req : Request) (w : World) :
  let run := generateCode env req w in
  ((exists name data err, EvDownload name data err ∈ trace run) ->
   files (world run) = delete (generated_file env) (files w))
  /\ ((forall name data err, EvDownload name data err ∉ trace run) ->
      files (world run) = files w).
Proof.
  cbv zeta.
  destruct (truthy (field req "prompt")) eqn:Hf.
  - rewrite (generateCode_run env req w Hf). cbv zeta.
    callAI_split env; unfold result, trace, world; simpl.
    + split; [intros (nm & dt & err0 & Hin); in_trace; discriminate | reflexivity].
    + match goal with |- context [write_failure env ?x w] =>
        destruct (write_failure env x w) as [er|] eqn:Hwf end; simpl.
      * split; [|intros _; apply with_generated_dir_files].
        intros (nm & dt & err0 & Hin). unfold mkdir_events in Hin.
        repeat case_match; simpl in Hin; in_trace; discriminate.
      * split; [intros _; apply delete_insert_eq|].
        intros Hno. exfalso.
        match goal with
        | H : forall _ _ _, EvDownload _ _ _ ∉ _ ?a :: _ ?b :: (_ ++ EvWrite _ ?T :: _)%list |- _ =>
            eapply (H "index.html" T (transfer env (generated_file env) T))
        end.
        do 2 apply list_elem_of_further. apply elem_of_app. right.
        apply list_elem_of_further. apply list_elem_of_here.
    + split; [intros (nm & dt & err0 & Hin); in_trace; discriminate | reflexivity].
  - pose proof (missing_field_run env GenerateCode req w eq_refl Hf) as Hrun.
    simpl handler in Hrun. rewrite Hrun. unfold trace, world; simpl.
    split; [intros (nm & dt & err0 & Hin); in_trace; discriminate | reflexivity].
Qed.

(** X18. When the transcript service rejects, the YouTube endpoint
    logs the error, answers 500 with its generic message, and neither
    enters [callAI] nor calls the provider. *)
Theorem summarizeYoutubeVideo_fetch_rejected (req : Request) (w : World)
    (er : exn) :
  truthy (field req "url") = true ->
  fetchTranscript env (field req "url") = Throw er ->
  summarizeYoutubeVideo env req w
  = (Ok tt, w,
     [EvFetchTranscript (field req "url"); EvConsoleError [] er;
      EvJson 500 (error_payload summarize_failure_message)]).
Proof.
  intros Hf Her. by rewrite (summarizeYoutubeVideo_run env req w Hf), Her.
Qed.

(** X19. With a truthy [url], a non-empty transcript and an allowed
    model, the YouTube endpoint fetches once, calls the provider once
    with the joined transcript, and answers 200 with the content of the
    first choice under [summary]. *)
Theorem summarizeYoutubeVideo_answers (req : Request) (w : World)
    (seg : Segment) (items : list Segment)
    (c : Completion) (ch : Choice) (rest : list Choice) :
  let model := field_default req "model" "deepseek/deepseek-chat-v3-0324:free" in
  let messages :=
    [system_message summarizeYoutubeVideo_systemPrompt;
     user_message
       (JStr ("Transcript: " ++ join " " (map text (seg :: items))))] in
  truthy (field req "url") = true ->
  fetchTranscript env (field req "url") = Ok (Some (seg :: items)) ->
  is_allowed model ->
  chat_completions_create env model messages = Ok c ->
  choices c = ch :: rest ->
  summarizeYoutubeVideo env req w
  = (Ok tt, w,
     [EvFetchTranscript (field req "url");
      EvCallAI model messages; EvCreate model messages;
      EvJson 200 (JObj [("summary", message_content ch)])]).
Proof.
  intros model messages Hf Htr Hal Hc Hch.
  rewrite (summarizeYoutubeVideo_run env req w Hf), Htr. cbv zeta.
  fold model messages. apply includes_is_allowed in Hal.
  rewrite (callAI_forwarded env model messages w Hal), Hc, Hch. reflexivity.
Qed.

(** X20. No segment is dropped: when the transcript is not empty, the
    text of every one of its segments occurs in the user message the
    YouTube endpoint hands to [callAI]. *)
Theorem transcript_segments_all_sent (req : Request) (w : World)
    (items : list Segment) (seg : Segment) :
  truthy (field req "url") = true ->
  fetchTranscript env (field req "url") = Ok (Some items) ->
  seg ∈ items ->
  exists model sys sent,
    EvCallAI model [sys; user_message (JStr sent)]
    ∈ trace (summarizeYoutubeVideo env req w)
    /\ occurs_in (text seg) sent.
Proof.
  intros Hf Htr Hseg.
  destruct items as [|s0 items]; [by apply elem_of_nil in Hseg|].
  rewrite (summarizeYoutubeVideo_run env req w Hf), Htr. cbv zeta.
  match goal with
  | |- context [callAI env ?m [?sy; user_message (JStr ?c)] w] =>
      exists m, sy, c;
      destruct (callAI_trace_head env m [sy; user_message (JStr c)] w)
        as (tl & Hhead & _)
  end.
  split.
  - unfold trace in Hhead |- *. cbn [snd]. rewrite Hhead.
    apply list_elem_of_further, list_elem_of_here.
  - apply occurs_in_prefix, join_occurs.
    apply list_elem_of_fmap. by exists seg.
Qed.

(** X21. With an upload that is on disk and a provider that answers,
    the image endpoint sends the file as a base64 data URL of its MIME
    type to the fixed model, removes the upload, and answers 200 with
    the content of the first choice under [description]. *)
Theorem imageToText_answers (req : Request) (w : World) (f : UploadedFile)
    (data : string) (c : Completion) (ch : Choice) (rest : list Choice) :
  let model := JStr "qwen/qwen3-32b:free" in
  let messages :=
    [user_message
       (vision_content ("data:" ++ mimetype f ++ ";base64," ++ base64 data))] in
  file req = Some f ->
  files w !! file_path f = Some data ->
  chat_completions_create env model messages = Ok c ->
  choices c = ch :: rest ->
  imageToText env req w
  = (Ok tt, {| files := delete (file_path f) (files w); dirs := dirs w |},
     [EvRead (file_path f); EvCreate model messages; EvUnlink (file_path f);
      EvJson 200 (JObj [("description", message_content ch)])]).
Proof.
  intros model messages Hfile Hread Hc Hch.
  rewrite (imageToText_run env req w f Hfile), Hread. cbv zeta.
  fold model messages. by rewrite Hc, Hch.
Qed.


(** X23. When the provider answers the image request with no choice,
    the upload has already been removed by the time the answer is
    read: the endpoint answers 500 and the file is gone. *)
Theorem imageToText_no_choice (req : Request) (w : World) (f : UploadedFile)
    (data : string) (c : Completion) :
  let model := JStr "qwen/qwen3-32b:free" in
  let messages :=
    [user_message
       (vision_content ("data:" ++ mimetype f ++ ";base64," ++ base64 data))] in
  file req = Some f ->
  files w !! file_path f = Some data ->
  chat_completions_create env model messages = Ok c ->
  choices c = [] ->
  imageToText env req w
  = (Ok tt, {| files := delete (file_path f) (files w); dirs := dirs w |},
     [EvRead (file_path f); EvCreate model messages; EvUnlink (file_path f);
      EvConsoleError [Lit "Image processing error:"]
        (TypeError "Cannot read properties of undefined (reading 'message')");
      EvJson 500 (error_payload "Failed to process image.")]).
Proof.
  intros model messages Hfile Hread Hc Hch.
  rewrite (imageToText_run env req w f Hfile), Hread. cbv zeta.
  fold model messages. by rewrite Hc, Hch.
Qed.

(** X24. The image endpoint goes around the dispatch helper: it never
    enters [callAI], so no model is ever rejected, and whatever the body
    of the request says, the only model it calls is the fixed one. *)
Theorem imageToText_bypasses_dispatch (req : Request) (w : World) :
  (forall m ms, EvCallAI m ms ∉ trace (imageToText env req w))
  /\ (forall m ms,
        EvCreate m ms ∈ trace (imageToText env req w) ->
        m = JStr "qwen/qwen3-32b:free")
  /\ (forall s, EvJson s (error_payload invalid_model_message)
                ∉ trace (imageToText env req w)).
Proof.
  destruct (file req) as [f|] eqn:Hfile.
  - rewrite (imageToText_run env req w f Hfile).
    destruct (files w !! file_path f) as [data|]; cbv zeta;
      [destruct (chat_completions_create env _ _) as [c|er];
       [destruct (choices c) as [|ch rest]|]|];
      unfold trace; simpl.
    all: split; [intros m ms Hin; in_trace|].
    all: split; [intros m ms Hin; by in_trace|].
    all: intros s Hin; in_trace; congruence.
  - rewrite (imageToText_missing_file env req w Hfile). unfold trace; simpl.
    split; [intros m ms Hin; in_trace|].
    split; [intros m ms Hin; in_trace|].
    intros s Hin; in_trace; congruence.
Qed.

End Paths.

(** ** The shared artifact under two requests *)

Section SharedArtifact.

Variable env : Env.

(** [generateCode] is its dispatch followed by [persist_and_send], and
    then the two steps of its transfer. *)
Lemma generateCode_persist (req : Request) :
  generateCode env req
  = if negb (truthy (field req "prompt")) then
      res_json 400 (error_payload "Prompt is required.")
    else
      opening <- try_catch
        (code <- callAI env (field_default req "model" "deepseek/deepseek-chat:free")
                   [system_message generateCode_systemPrompt;
                    user_message (field req "prompt")];;
         persist_and_send env code)
        (fun error =>
           res_json 500 (error_payload (exn_message error));;
           ret (ret (ret tt)));;
      ending <- opening;;
      ending.
Proof. reflexivity. Qed.

Lemma usable_after_mkdir (w : World) :
  artifact_path_usable env w ->
  generated_dir env ∈ dirs (with_generated_dir env w)
  /\ (generated_file env ∉ dirs (with_generated_dir env w))
  /\ exists_in (with_generated_dir env w) (generated_dir env) = true.
Proof.
  intros (Hfile & Hdir).
  pose proof (generated_file_is_not_dir env) as Hne.
  assert (generated_dir env ∈ dirs (with_generated_dir env w)) as Hin.
  { unfold with_generated_dir, exists_in.
    destruct (bool_decide (generated_dir env ∈ dirs w)) eqn:Hd; simpl.
    - by apply bool_decide_eq_true in Hd.
    - destruct Hdir as [Hdir|Hdir];
        [by apply bool_decide_eq_false in Hd|].
      rewrite Hdir. rewrite (bool_decide_eq_false_2 (is_Some None))
        by (intros [? ?]; discriminate).
      simpl. set_solver. }
  split; [exact Hin|]. split.
  - unfold with_generated_dir.
    destruct (exists_in w (generated_dir env)); simpl; [exact Hfile|].
    intros [Heq%elem_of_singleton|Hin']%elem_of_union; [by apply Hne | by apply Hfile].
  - unfold exists_in. by rewrite (bool_decide_eq_true_2 _ Hin).
Qed.

(** Persisting a text where the artifact can be written: the file holds
    it and a transfer is registered.  When the transfer opens the file it
    takes what the file holds then, and when it ends it sends that and
    the callback unlinks the path, or throws when the path is gone. *)
Lemma persist_and_send_text (T : string) (w : World) :
  artifact_path_usable env w ->
  exists opening,
    persist_and_send env (JStr T) w
    = (Ok opening,
       {| files := <[generated_file env := T]> (files w);
          dirs := dirs (with_generated_dir env w) |},
       (mkdir_events env w ++ [EvWrite (generated_file env) T])%list)
    /\ (forall w' data,
          files w' !! generated_file env = Some data ->
          exists ending,
            opening w' = (Ok ending, w', [])
            /\ (forall w'',
                  is_Some (files w'' !! generated_file env) ->
                  ending w''
                  = (Ok tt,
                     {| files := delete (generated_file env) (files w'');
                        dirs := dirs w'' |},
                     ([EvDownload "index.html" data
                         (transfer env (generated_file env) data)]
                      ++ download_log (transfer env (generated_file env) data)
                      ++ [EvUnlink (generated_file env)])%list))
            /\ (forall w'',
                  files w'' !! generated_file env = None ->
                  ending w''
                  = (Throw (ENOENT env "unlink" (generated_file env)), w'',
                     ([EvDownload "index.html" data
                         (transfer env (generated_file env) data)]
                      ++ download_log (transfer env (generated_file env) data))%list))).
Proof.
  intros Huse. pose proof (storage_error_usable env w Huse) as Hse.
  eexists. split.
  - unfold persist_and_send, existsSync, mkdirSync, res_download,
      writeFileSync, bind, ret.
    cbv beta.
    change (path_join (__dirname env) [".."; "generated_code"])
      with (generated_dir env).
    change (path_join (generated_dir env) ["index.html"])
      with (generated_file env).
    change (bool_decide (generated_dir env ∈ dirs w)
            || bool_decide (is_Some (files w !! generated_dir env)))
      with (exists_in w (generated_dir env)).
    unfold with_generated_dir, mkdir_events in Hse |- *.
    destruct (exists_in w (generated_dir env)) eqn:Hex;
      unfold exists_in in Hex;
      do 3 (cbn -[storage_error generated_dir generated_file];
            rewrite ?Hex, ?Hse);
      reflexivity.
  - intros w' data Hdata. cbv beta. rewrite Hdata. eexists.
    split; [reflexivity|]. split.
    + intros w'' [d Hd].
      unfold bind, emit, console_error, emit, unlinkSync, ret, download_log.
      destruct (transfer env (generated_file env) data); simpl;
        rewrite Hd; reflexivity.
    + intros w'' Hd.
      unfold bind, emit, console_error, emit, unlinkSync, ret, download_log.
      destruct (transfer env (generated_file env) data); simpl;
        rewrite Hd; reflexivity.
Qed.

Lemma usable_persisted (T : string) (w : World) :
  artifact_path_usable env w ->
  let w1 := {| files := <[generated_file env := T]> (files w);
               dirs := dirs (with_generated_dir env w) |} in
  artifact_path_usable env w1
  /\ with_generated_dir env w1 = w1
  /\ mkdir_events env w1 = [].
Proof.
  intros Huse w1.
  destruct (usable_after_mkdir w Huse) as (Hdir & Hfile & _).
  assert (exists_in w1 (generated_dir env) = true) as Hex
    by (unfold exists_in, w1; simpl; by rewrite (bool_decide_eq_true_2 _ Hdir)).
  split; [split; [exact Hfile | by left]|].
  unfold with_generated_dir, mkdir_events. by rewrite Hex.
Qed.


(** X26. The same two requests one after the other, in a storage where
    the artifact can be written: each caller is sent its own text, the
    directory is made at most once, and nothing is left at the artifact
    path. *)
Theorem consecutive_downloads_own (TA TB : string) (w : World) :
  artifact_path_usable env w ->
  let sentA := transfer env (generated_file env) TA in
  let sentB := transfer env (generated_file env) TB in
  consecutive_downloads env (JStr TA) (JStr TB) w
  = (Ok tt,
     {| files := delete (generated_file env) (files w);
        dirs := dirs (with_generated_dir env w) |},
     (mkdir_events env w
      ++ [EvWrite (generated_file env) TA; EvDownload "index.html" TA sentA]
      ++ download_log sentA
      ++ [EvUnlink (generated_file env);
          EvWrite (generated_file env) TB; EvDownload "index.html" TB sentB]
      ++ download_log sentB
      ++ [EvUnlink (generated_file env)])%list).
Proof.
  intros Huse. cbv zeta.
  destruct (persist_and_send_text TA w Huse) as (openingA & HA & HopenA).
  set (wA := {| files := <[generated_file env := TA]> (files w);
                dirs := dirs (with_generated_dir env w) |}) in *.
  destruct (usable_persisted TA w Huse) as (HuseA & HwA & HmkA).
  fold wA in HuseA, HwA, HmkA.
  assert (files wA !! generated_file env = Some TA) as HreadA
    by apply lookup_insert_eq.
  destruct (HopenA wA TA HreadA) as (endingA & HstartA & HendA & _).
  set (wA' := {| files := delete (generated_file env) (files wA); dirs := dirs wA |}) in *.
  assert (artifact_path_usable env wA') as HuseA'.
  { destruct (usable_after_mkdir w Huse) as (Hdir & _ & _).
    split; [exact (proj1 HuseA) | left; exact Hdir]. }
  assert (with_generated_dir env wA' = wA' /\ mkdir_events env wA' = [])
    as (HwA' & HmkA').
  { assert (exists_in wA' (generated_dir env) = true) as Hex.
    { destruct (usable_after_mkdir w Huse) as (Hdir & _ & _).
      unfold exists_in, wA'; simpl. by rewrite (bool_decide_eq_true_2 _ Hdir). }
    unfold with_generated_dir, mkdir_events. by rewrite Hex. }
  destruct (persist_and_send_text TB wA' HuseA') as (openingB & HB & HopenB).
  rewrite HwA', HmkA' in HB. simpl in HB.
  set (wB := {| files := <[generated_file env := TB]> (files wA'); dirs := dirs wA' |}) in *.
  assert (files wB !! generated_file env = Some TB) as HreadB
    by apply lookup_insert_eq.
  destruct (HopenB wB TB HreadB) as (endingB & HstartB & HendB & _).
  unfold consecutive_downloads.
  rewrite (bind_ok _ _ _ _ _ _ HA).
  rewrite (bind_ok _ _ _ _ _ _ HstartA).
  rewrite (bind_ok _ _ _ _ _ _ (HendA wA ltac:(by eexists))).
  rewrite (bind_ok _ _ _ _ _ _ HB).
  rewrite (bind_ok _ _ _ _ _ _ HstartB).
  rewrite (HendB wB) by (by eexists).
  unfold result, world, trace; simpl.
  rewrite !delete_insert_eq, delete_delete_eq.
  f_equal. rewrite ?app_nil_r, <- ?app_assoc. simpl.
  rewrite <- ?app_assoc. reflexivity.
Qed.

End SharedArtifact.

(** ** The further properties, applied *)

Lemma callAI_throws_two_errors_witness :
  result (callAI Sample.env_up (JStr "openai/gpt-4o") Sample.messages
            Sample.empty_world)
  = Throw (Error invalid_model_message)
  /\ ((Error invalid_model_message = Error invalid_model_message
       /\ ~ is_allowed (JStr "openai/gpt-4o"))
      \/ (Error invalid_model_message = Error upstream_failure_message
          /\ is_allowed (JStr "openai/gpt-4o"))).
Proof.
  assert (result (callAI Sample.env_up (JStr "openai/gpt-4o") Sample.messages
                    Sample.empty_world)
          = Throw (Error invalid_model_message)) as H by reflexivity.
  split; [exact H|].
  exact (callAI_throws_two_errors Sample.env_up _ _ _ _ H).
Defined.

Lemma handler_frame_witness :
  file_path Sample.upload <> generated_file Sample.env_up
  /\ files (world (handler Sample.env_up GenerateCode
                     (Sample.req_prompt "a landing page")
                     Sample.world_with_upload))
     !! file_path Sample.upload
     = files Sample.world_with_upload !! file_path Sample.upload.
Proof.
  assert (file_path Sample.upload <> generated_file Sample.env_up) as Hne
    by discriminate.
  split; [exact Hne|].
  apply (handler_frame Sample.env_up GenerateCode
           (Sample.req_prompt "a landing page") Sample.world_with_upload
           (file_path Sample.upload) Hne).
  intros f Hf. discriminate Hf.
Defined.

Lemma json_endpoints_leave_storage_witness :
  plain Chat = true
  /\ world (handler Sample.env_up Chat (Sample.req_prompt "hello")
              Sample.world_with_upload)
     = Sample.world_with_upload.
Proof.
  split; [reflexivity|].
  apply (json_endpoints_leave_storage Sample.env_up Chat
           (Sample.req_prompt "hello") Sample.world_with_upload).
  left. reflexivity.
Defined.

Lemma plain_endpoint_answers_witness :
  truthy (field (Sample.req_prompt "2+2?") "prompt") = true
  /\ handler Sample.env_up MathReasoning (Sample.req_prompt "2+2?")
       Sample.empty_world
     = (Ok tt, Sample.empty_world,
        [EvCallAI (JStr "microsoft/phi-4-reasoning-plus:free")
           [system_message getMathReasoning_systemPrompt; user_message (JStr "2+2?")];
         EvCreate (JStr "microsoft/phi-4-reasoning-plus:free")
           [system_message getMathReasoning_systemPrompt; user_message (JStr "2+2?")];
         EvJson 200 (JObj [("reasoning", JStr "<!DOCTYPE html><html></html>")])]).
Proof.
  assert (truthy (field (Sample.req_prompt "2+2?") "prompt") = true) as Hf
    by (vm_compute; reflexivity).
  assert (is_allowed (field_default (Sample.req_prompt "2+2?") "model"
                        (default_model MathReasoning))) as Hal
    by (by apply includes_is_allowed; vm_compute).
  split; [exact Hf|].
  rewrite (plain_endpoint_answers Sample.env_up MathReasoning
             (Sample.req_prompt "2+2?") Sample.empty_world "reasoning"
             (Sample.completion_of Sample.html)
             {| message_content := JStr Sample.html |} []
             eq_refl eq_refl Hf Hal eq_refl eq_refl).
  vm_compute. reflexivity.
Defined.

Lemma provider_down_answer_witness :
  (forall m ms, exists er, chat_completions_create Sample.env_down m ms = Throw er)
  /\ filter is_response
       (trace (handler Sample.env_down Chat (Sample.req_prompt "hello")
                 Sample.empty_world))
     = [EvJson 500 (error_payload "Failed to get response from AI model.")].
Proof.
  assert (forall m ms,
            exists er, chat_completions_create Sample.env_down m ms = Throw er)
    as Hdown by (intros m ms; by eexists).
  split; [exact Hdown|].
  apply (provider_down_answer Sample.env_down Chat (Sample.req_prompt "hello")
           Sample.empty_world Hdown).
  exists (JStr "qwen/qwen3-32b:free"),
    [system_message handleChat_systemPrompt; user_message (JStr "hello")].
  apply list_elem_of_In. vm_compute. right. left. reflexivity.
Defined.

Lemma error_message_origin_witness :
  EvJson 500 (error_payload (data_type_error_message Sample.env_null JNull))
  ∈ trace (handler Sample.env_null GenerateCode
             (Sample.req_prompt "a landing page") Sample.empty_world)
  /\ write_failure Sample.env_null JNull Sample.empty_world
     = Some (TypeError (data_type_error_message Sample.env_null JNull))
  /\ (data_type_error_message Sample.env_null JNull ∈ error_messages GenerateCode
      \/ (GenerateCode = GenerateCode /\ 500 = 500
          /\ exists code er,
               result (callAI Sample.env_null
                         (field_default (Sample.req_prompt "a landing page")
                            "model" "deepseek/deepseek-chat:free")
                         [system_message generateCode_systemPrompt;
                          user_message
                            (field (Sample.req_prompt "a landing page") "prompt")]
                         Sample.empty_world) = Ok code
               /\ write_failure Sample.env_null code Sample.empty_world = Some er
               /\ data_type_error_message Sample.env_null JNull = exn_message er)).
Proof.
  assert (EvJson 500 (error_payload (data_type_error_message Sample.env_null JNull))
          ∈ trace (handler Sample.env_null GenerateCode
                     (Sample.req_prompt "a landing page") Sample.empty_world))
    as Hin.
  { apply list_elem_of_In. vm_compute. do 3 right. left. reflexivity. }
  split; [exact Hin|]. split; [reflexivity|].
  exact (error_message_origin Sample.env_null GenerateCode
           (Sample.req_prompt "a landing page") Sample.empty_world 500 _ Hin).
Defined.

Lemma present_model_is_not_defaulted_witness :
  body (Sample.req_prompt_null_model "hello") !! "model" = Some JNull
  /\ ~ is_allowed JNull
  /\ handler Sample.env_up Chat (Sample.req_prompt_null_model "hello")
       Sample.empty_world
     = (Ok tt, Sample.empty_world,
        [EvCallAI JNull
           [system_message handleChat_systemPrompt; user_message (JStr "hello")];
         EvJson 500 (error_payload invalid_model_message)]).
Proof.
  assert (body (Sample.req_prompt_null_model "hello") !! "model" = Some JNull)
    as Hm by (vm_compute; reflexivity).
  assert (~ is_allowed JNull) as Hnot by (by apply includes_not_allowed).
  assert (truthy (field (Sample.req_prompt_null_model "hello")
                    (required_field Chat)) = true) as Hf
    by (vm_compute; reflexivity).
  split; [exact Hm|]. split; [exact Hnot|].
  rewrite (present_model_is_not_defaulted Sample.env_up Chat
             (Sample.req_prompt_null_model "hello") Sample.empty_world JNull
             eq_refl ltac:(discriminate) Hf Hm ltac:(discriminate) Hnot).
  vm_compute. reflexivity.
Defined.

Lemma generateCode_content_not_text_witness :
  (forall T, JNull <> JStr T)
  /\ exists msg,
       generateCode Sample.env_null (Sample.req_prompt "a landing page")
         Sample.empty_world
       = (Ok tt,
          {| files := ∅;
             dirs := {[ ["srv"; "controllers"; ".."; "generated_code"] ]} ∪ ∅ |},
          [EvCallAI (JStr "deepseek/deepseek-chat:free")
             [system_message generateCode_systemPrompt;
              user_message (JStr "a landing page")];
           EvCreate (JStr "deepseek/deepseek-chat:free")
             [system_message generateCode_systemPrompt;
              user_message (JStr "a landing page")];
           EvMkdir ["srv"; "controllers"; ".."; "generated_code"];
           EvJson 500 (error_payload msg)]).
Proof.
  assert (forall T, JNull <> JStr T) as Hnt by discriminate.
  split; [exact Hnt|].
  assert (truthy (field (Sample.req_prompt "a landing page") "prompt") = true)
    as Hf by (vm_compute; reflexivity).
  assert (is_allowed (field_default (Sample.req_prompt "a landing page") "model"
                        "deepseek/deepseek-chat:free")) as Hal
    by (by apply includes_is_allowed; vm_compute).
  destruct (generateCode_content_not_text Sample.env_null
              (Sample.req_prompt "a landing page") Sample.empty_world
              {| choices := [ {| message_content := JNull |} ] |}
              {| message_content := JNull |} []
              Hf Hal eq_refl eq_refl Hnt) as (msg & Hrun & _).
  exists msg. rewrite Hrun.
  rewrite (field_present _ "prompt" (JStr "a landing page"))
    by (vm_compute; reflexivity).
  rewrite (field_default_absent _ "model" _) by (vm_compute; reflexivity).
  reflexivity.
Defined.

Lemma summarizeYoutubeVideo_fetch_rejected_witness :
  fetchTranscript Sample.env_deaf (JStr "https://youtu.be/dQw4w9WgXcQ")
  = Throw Sample.transcript_error
  /\ summarizeYoutubeVideo Sample.env_deaf
       (Sample.req_url "https://youtu.be/dQw4w9WgXcQ") Sample.empty_world
     = (Ok tt, Sample.empty_world,
        [EvFetchTranscript (JStr "https://youtu.be/dQw4w9WgXcQ");
         EvConsoleError [] Sample.transcript_error;
         EvJson 500 (error_payload summarize_failure_message)]).
Proof.
  split; [reflexivity|].
  rewrite (summarizeYoutubeVideo_fetch_rejected Sample.env_deaf
             (Sample.req_url "https://youtu.be/dQw4w9WgXcQ") Sample.empty_world
             Sample.transcript_error)
    by (vm_compute; reflexivity).
  vm_compute. reflexivity.
Defined.

Lemma summarizeYoutubeVideo_answers_witness :
  truthy (field (Sample.req_url "https://youtu.be/dQw4w9WgXcQ") "url") = true
  /\ summarizeYoutubeVideo Sample.env_up
       (Sample.req_url "https://youtu.be/dQw4w9WgXcQ") Sample.empty_world
     = (Ok tt, Sample.empty_world,
        [EvFetchTranscript (JStr "https://youtu.be/dQw4w9WgXcQ");
         EvCallAI (JStr "deepseek/deepseek-chat-v3-0324:free")
           [system_message summarizeYoutubeVideo_systemPrompt;
            user_message (JStr "Transcript: Hello world")];
         EvCreate (JStr "deepseek/deepseek-chat-v3-0324:free")
           [system_message summarizeYoutubeVideo_systemPrompt;
            user_message (JStr "Transcript: Hello world")];
         EvJson 200 (JObj [("summary", JStr "<!DOCTYPE html><html></html>")])]).
Proof.
  assert (truthy (field (Sample.req_url "https://youtu.be/dQw4w9WgXcQ") "url") = true)
    as Hf by (vm_compute; reflexivity).
  assert (is_allowed (field_default (Sample.req_url "https://youtu.be/dQw4w9WgXcQ")
                        "model" "deepseek/deepseek-chat-v3-0324:free")) as Hal
    by (by apply includes_is_allowed; vm_compute).
  split; [exact Hf|].
  rewrite (summarizeYoutubeVideo_answers Sample.env_up
             (Sample.req_url "https://youtu.be/dQw4w9WgXcQ") Sample.empty_world
             {| text := "Hello"; duration := 1%float; offset := 0%float |}
             [ {| text := "world"; duration := 2%float; offset := 1%float |} ]
             (Sample.completion_of Sample.html)
             {| message_content := JStr Sample.html |} []
             Hf eq_refl Hal eq_refl eq_refl).
  vm_compute. reflexivity.
Defined.

Lemma transcript_segments_all_sent_witness :
  {| text := "world"; duration := 2%float; offset := 1%float |} ∈ Sample.segments
  /\ exists model sys sent,
       EvCallAI model [sys; user_message (JStr sent)]
       ∈ trace (summarizeYoutubeVideo Sample.env_up
                  (Sample.req_url "https://youtu.be/dQw4w9WgXcQ")
                  Sample.empty_world)
       /\ occurs_in "world" sent.
Proof.
  assert ({| text := "world"; duration := 2%float; offset := 1%float |}
          ∈ Sample.segments) as Hseg
    by (apply list_elem_of_further, list_elem_of_here).
  split; [exact Hseg|].
  apply (transcript_segments_all_sent Sample.env_up
           (Sample.req_url "https://youtu.be/dQw4w9WgXcQ") Sample.empty_world
           Sample.segments
           {| text := "world"; duration := 2%float; offset := 1%float |}).
  - vm_compute; reflexivity.
  - reflexivity.
  - exact Hseg.
Defined.

Lemma imageToText_answers_witness :
  files Sample.world_with_upload !! file_path Sample.upload = Some "PNG"
  /\ imageToText Sample.env_up Sample.req_image Sample.world_with_upload
     = (Ok tt,
        {| files := delete (file_path Sample.upload) (files Sample.world_with_upload);
           dirs := dirs Sample.world_with_upload |},
        [EvRead ["uploads"; "1700000000000.png"];
         EvCreate (JStr "qwen/qwen3-32b:free")
           [user_message (vision_content "data:image/png;base64,UE5H")];
         EvUnlink ["uploads"; "1700000000000.png"];
         EvJson 200 (JObj [("description", JStr "<!DOCTYPE html><html></html>")])]).
Proof.
  assert (files Sample.world_with_upload !! file_path Sample.upload = Some "PNG")
    as Hread by (vm_compute; reflexivity).
  split; [exact Hread|].
  exact (imageToText_answers Sample.env_up Sample.req_image
           Sample.world_with_upload Sample.upload "PNG"
           (Sample.completion_of Sample.html)
           {| message_content := JStr Sample.html |} []
           eq_refl Hread eq_refl eq_refl).
Defined.


Lemma imageToText_no_choice_witness :
  files Sample.world_with_upload !! file_path Sample.upload = Some "PNG"
  /\ files (world (imageToText Sample.env_mute Sample.req_image
                     Sample.world_with_upload))
     !! file_path Sample.upload = None
  /\ filter is_response
       (trace (imageToText Sample.env_mute Sample.req_image
                 Sample.world_with_upload))
     = [EvJson 500 (error_payload "Failed to process image.")].
Proof.
  assert (files Sample.world_with_upload !! file_path Sample.upload = Some "PNG")
    as Hread by (vm_compute; reflexivity).
  split; [exact Hread|].
  rewrite (imageToText_no_choice Sample.env_mute Sample.req_image
             Sample.world_with_upload Sample.upload "PNG" {| choices := [] |}
             eq_refl Hread eq_refl eq_refl).
  split; [apply lookup_delete_eq | reflexivity].
Defined.

Lemma callAI_no_choice_witness :
  is_allowed (JStr "qwen/qwen3-32b:free")
  /\ callAI Sample.env_mute (JStr "qwen/qwen3-32b:free") Sample.messages
       Sample.empty_world
     = (Throw (Error upstream_failure_message), Sample.empty_world,
        [EvCallAI (JStr "qwen/qwen3-32b:free") Sample.messages;
         EvCreate (JStr "qwen/qwen3-32b:free") Sample.messages;
         EvConsoleError
           [Lit "Error calling AI model "; Hole (JStr "qwen/qwen3-32b:free"); Lit ":"]
           (TypeError "Cannot read properties of undefined (reading 'message')")]).
Proof.
  split; [exact sample_model_allowed|].
  exact (callAI_no_choice Sample.env_mute (JStr "qwen/qwen3-32b:free")
           Sample.messages Sample.empty_world {| choices := [] |}
           sample_model_allowed eq_refl eq_refl).
Defined.


Lemma consecutive_downloads_own_witness :
  artifact_path_usable Sample.env_up Sample.empty_world
  /\ consecutive_downloads Sample.env_up (JStr "<p>first</p>") (JStr "<p>second</p>")
       Sample.empty_world
     = (Ok tt,
        {| files := ∅;
           dirs := {[ ["srv"; "controllers"; ".."; "generated_code"] ]} ∪ ∅ |},
        [EvMkdir ["srv"; "controllers"; ".."; "generated_code"];
         EvWrite ["srv"; "controllers"; ".."; "generated_code"; "index.html"]
           "<p>first</p>";
         EvDownload "index.html" "<p>first</p>" None;
         EvUnlink ["srv"; "controllers"; ".."; "generated_code"; "index.html"];
         EvWrite ["srv"; "controllers"; ".."; "generated_code"; "index.html"]
           "<p>second</p>";
         EvDownload "index.html" "<p>second</p>" None;
         EvUnlink ["srv"; "controllers"; ".."; "generated_code"; "index.html"]]).
Proof.
  split; [exact sample_storage_usable|].
  rewrite (consecutive_downloads_own Sample.env_up "<p>first</p>" "<p>second</p>"
             Sample.empty_world sample_storage_usable).
  vm_compute. reflexivity.
Defined.
